(** * stepci-runner: the load-test orchestrator ([src/loadtesting.ts])

    A shallow embedding of [metricsResult] and [loadTest], and the
    properties of the report they build.

    Numbers.  Latencies, thresholds and the summary statistics are JavaScript
    numbers in the source; they are modelled by exact rationals ([Q]), so
    rounding is outside the model.  Array lengths and counts are [nat],
    timestamps (milliseconds since the epoch) are [Z].  The one place where
    the source can divide by zero, the [rps] field, keeps the JavaScript
    result of such a division ([Infinity], [NaN]) through the type [number]. *)

From Stdlib Require Import String.
From Stdlib Require Import List Bool Arith ZArith QArith Qround Qminmax.
From Stdlib Require Import Sorted Lia Lqa.
Import ListNotations.

Set Implicit Arguments.

Local Open Scope Q_scope.

(** ** Failures

    Every [throw] that leaves [loadTest] or [metricsResult]. *)

Inductive Exn : Type :=
| MissingLoadTestConfig
    (* [throw Error('No load test config detected')], line 76 *)
| EmptySampleSet
    (* a statistic asked of an empty array *)
| TypeError (msg : string).
    (* raised by the runtime: a property read on [undefined], or
       [Object.entries(undefined)] *)

Definition Result (A : Type) : Type := (Exn + A)%type.

Definition ok {A : Type} (a : A) : Result A := inr a.
Definition failed {A : Type} (e : Exn) : Result A := inl e.

Definition and_then {A B : Type} (r : Result A) (k : A -> Result B) : Result B :=
  match r with
  | inl e => inl e
  | inr a => k a
  end.

Declare Scope result_scope.
Delimit Scope result_scope with result.
Notation "'let?' x ':=' r 'in' k" := (and_then r (fun x => k))
  (at level 10, x name, r at level 100, k at level 200) : result_scope.

(** ** The statistics primitives

    [import { quantile, mean, min, max, median } from 'simple-statistics'].
    The package is a dependency of the repository and its source is not among
    the sources; its five functions are modelled from the specification of
    the Metric Aggregator (section 4.1). *)

Module SimpleStatistics.

(** Modelled from the spec: a percentile is read off the samples in ascending
    order; [insert] and [sort] put them in that order. *)
Fixpoint insert (v : Q) (s : list Q) : list Q :=
  match s with
  | [] => [v]
  | w :: s' => if Qle_bool v w then v :: s else w :: insert v s'
  end.

Fixpoint sort (x : list Q) : list Q :=
  match x with
  | [] => []
  | v :: x' => insert v (sort x')
  end.

(** Modelled from the spec: the sum under the "arithmetic mean". *)
Definition sum (x : list Q) : Q := fold_left Qplus x 0.

(** Modelled from the spec: the body of [mean] of simple-statistics is not
    among the sources.  "avg = arithmetic mean"; on the empty sequence the
    aggregation "fails with an EmptySampleSet condition". *)
Definition mean (x : list Q) : Result Q :=
  match x with
  | [] => failed EmptySampleSet
  | _ :: _ => ok (sum x / inject_Z (Z.of_nat (length x)))
  end.

(** Modelled from the spec: the body of [min] of simple-statistics is not
    among the sources.  "min/max = extrema". *)
Definition min (x : list Q) : Result Q :=
  match x with
  | [] => failed EmptySampleSet
  | v :: x' => ok (fold_left Qmin x' v)
  end.

(** Modelled from the spec: the body of [max] of simple-statistics is not
    among the sources.  "min/max = extrema". *)
Definition max (x : list Q) : Result Q :=
  match x with
  | [] => failed EmptySampleSet
  | v :: x' => ok (fold_left Qmax x' v)
  end.

(** Modelled from the spec: the "linear-interpolation quantile estimator
    (standard type 7)" on an ascending sample [s]: position
    [h = (n - 1) * p], value interpolated linearly between the samples at
    [floor h] and [floor h + 1] (the last sample stands for the one after
    it). *)
Definition quantileSorted (s : list Q) (p : Q) : Q :=
  let h := inject_Z (Z.of_nat (length s) - 1) * p in
  let lo := Qfloor h in
  let below := nth (Z.to_nat lo) s 0 in
  let above := nth (Z.to_nat (lo + 1)) s below in
  below + (h - inject_Z lo) * (above - below).

(** Modelled from the spec: the body of [quantile] of simple-statistics is
    not among the sources.  "p95/p99 = 95th/99th percentile using a
    linear-interpolation quantile estimator (standard type 7 or
    equivalent)". *)
Definition quantile (x : list Q) (p : Q) : Result Q :=
  match x with
  | [] => failed EmptySampleSet
  | _ :: _ => ok (quantileSorted (sort x) p)
  end.

(** Modelled from the spec: the body of [median] of simple-statistics is
    not among the sources.  "med = 50th percentile". *)
Definition median (x : list Q) : Result Q := quantile x (1 # 2).

End SimpleStatistics.

(** ** [LoadTestMetric] and [metricsResult] (lines 30-37, 57-66) *)

Module LoadTestMetric.
Record t : Type := make {
  avg : Q;
  min : Q;
  max : Q;
  med : Q;
  p95 : Q;
  p99 : Q
}.
End LoadTestMetric.

Definition metricsResult (numbers : list Q) : Result LoadTestMetric.t :=
  (let? avg := SimpleStatistics.mean numbers in
   let? min := SimpleStatistics.min numbers in
   let? max := SimpleStatistics.max numbers in
   let? med := SimpleStatistics.median numbers in
   let? p95 := SimpleStatistics.quantile numbers (95 # 100) in
   let? p99 := SimpleStatistics.quantile numbers (99 # 100) in
   ok (LoadTestMetric.make avg min max med p95 p99))%result.

(** ** JavaScript division

    [a / b] on finite operands; the divisor of [rps] is [+0] when no
    millisecond has elapsed. *)

Inductive number : Type :=
| Finite (q : Q)
| PosInfinity
| NegInfinity
| NaN.

Definition js_div (a b : Q) : number :=
  if Qeq_bool b 0 then
    if Qeq_bool a 0 then NaN
    else if Qle_bool 0 a then PosInfinity else NegInfinity
  else Finite (a / b).

(** ** The data the orchestrator reads and builds *)

(** Modelled from the spec: the types [WorkflowResult] and [TestResult] are
    declared in [./index], which is not among the sources.  "IterationOutcome:
    { passed: bool, tests: ordered sequence of TestOutcome }.  A TestOutcome
    contains steps: ordered sequence of StepOutcome; a StepOutcome contains
    { passed: bool, responseTime: number }."  Only the fields [loadTest]
    reads are kept. *)
Module StepResult.
Record t : Type := make {
  passed : bool;
  responseTime : Q
}.
End StepResult.

(** Modelled from the spec: "a TestOutcome contains steps: ordered sequence
    of StepOutcome". *)
Module TestResult.
Record t : Type := make {
  steps : list StepResult.t
}.
End TestResult.

(** Modelled from the spec: the [result] field of a [WorkflowResult],
    "IterationOutcome: { passed: bool, tests: ordered sequence of
    TestOutcome }". *)
Module RunResult.
Record t : Type := make {
  tests : list TestResult.t;
  passed : bool
}.
End RunResult.

(** Modelled from the spec: of a [WorkflowResult], line 80 reads the
    [result] field. *)
Module WorkflowResult.
Record t : Type := make {
  result : RunResult.t
}.
End WorkflowResult.

(** What [runPhases] hands back for one call of the iteration callback
    ([PromiseSettledResult<T>]): a rejected entry has no [value]. *)
Inductive PromiseSettledResult (T : Type) : Type :=
| fulfilled (value : T)
| rejected (reason : string).

Arguments rejected {T} reason.

(** Modelled from the spec: [Phase] is declared by phasic, which is not
    among the sources.  "Phase = { arrivalRate: number, duration: number }". *)
Module Phase.
Record t : Type := make {
  duration : Q;
  arrivalRate : Q
}.
End Phase.

(** [number | Matcher[]]: the type of one entry of a check block.  [Matcher]
    comes from [./matcher] and stays a parameter. *)
Inductive Threshold (Matcher : Type) : Type :=
| Bound (n : Q)
| Matchers (ms : list Matcher).

Arguments Bound {Matcher} n.

(** The names of the six summary statistics. *)
Module MetricKey.
Inductive t : Type := avg | min | max | med | p95 | p99.

Definition all : list t := [avg; min; max; med; p95; p99].

Definition eqb (a b : t) : bool :=
  match a, b with
  | avg, avg | min, min | max, max | med, med | p95, p95 | p99, p99 => true
  | _, _ => false
  end.
End MetricKey.

Definition metric (k : MetricKey.t) (m : LoadTestMetric.t) : Q :=
  match k with
  | MetricKey.avg => LoadTestMetric.avg m
  | MetricKey.min => LoadTestMetric.min m
  | MetricKey.max => LoadTestMetric.max m
  | MetricKey.med => LoadTestMetric.med m
  | MetricKey.p95 => LoadTestMetric.p95 m
  | MetricKey.p99 => LoadTestMetric.p99 m
  end.

(** [LoadTestCheck] (lines 39-46): every key is optional. *)
Module LoadTestCheck.
Record t (Matcher : Type) : Type := make {
  avg : option (Threshold Matcher);
  min : option (Threshold Matcher);
  max : option (Threshold Matcher);
  med : option (Threshold Matcher);
  p95 : option (Threshold Matcher);
  p99 : option (Threshold Matcher)
}.

Definition get {Matcher : Type} (k : MetricKey.t) (c : t Matcher)
  : option (Threshold Matcher) :=
  match k with
  | MetricKey.avg => avg c
  | MetricKey.min => min c
  | MetricKey.max => max c
  | MetricKey.med => med c
  | MetricKey.p95 => p95 c
  | MetricKey.p99 => p99 c
  end.
End LoadTestCheck.

(** [LoadTestChecksResult] (lines 48-55). *)
Module LoadTestChecksResult.
Record t (CheckResult : Type) : Type := make {
  avg : option CheckResult;
  min : option CheckResult;
  max : option CheckResult;
  med : option CheckResult;
  p95 : option CheckResult;
  p99 : option CheckResult
}.

Definition get {CheckResult : Type} (k : MetricKey.t) (c : t CheckResult)
  : option CheckResult :=
  match k with
  | MetricKey.avg => avg c
  | MetricKey.min => min c
  | MetricKey.max => max c
  | MetricKey.med => med c
  | MetricKey.p95 => p95 c
  | MetricKey.p99 => p99 c
  end.

(** The object literal [{}]. *)
Definition empty {CheckResult : Type} : t CheckResult :=
  make None None None None None None.

(** [checks.k = v]. *)
Definition set {CheckResult : Type} (k : MetricKey.t) (v : CheckResult)
  (c : t CheckResult) : t CheckResult :=
  match k with
  | MetricKey.avg => make (Some v) (min c) (max c) (med c) (p95 c) (p99 c)
  | MetricKey.min => make (avg c) (Some v) (max c) (med c) (p95 c) (p99 c)
  | MetricKey.max => make (avg c) (min c) (Some v) (med c) (p95 c) (p99 c)
  | MetricKey.med => make (avg c) (min c) (max c) (Some v) (p95 c) (p99 c)
  | MetricKey.p95 => make (avg c) (min c) (max c) (med c) (Some v) (p99 c)
  | MetricKey.p99 => make (avg c) (min c) (max c) (med c) (p95 c) (Some v)
  end.

(** [Object.entries(checks)]: the keys that were assigned, with their
    values.  The source assigns in the order of [MetricKey.all]. *)
Definition entries {CheckResult : Type} (c : t CheckResult)
  : list (MetricKey.t * CheckResult) :=
  flat_map (fun k => match get k c with
                     | Some v => [(k, v)]
                     | None => []
                     end) MetricKey.all.
End LoadTestChecksResult.

(** [workflow.config?.loadTest]: [phases] and [check] may each be absent. *)
Module LoadTestConfig.
Record t (Matcher : Type) : Type := make {
  phases : option (list Phase.t);
  check : option (LoadTestCheck.t Matcher)
}.
End LoadTestConfig.

Module WorkflowConfig.
Record t (Matcher : Type) : Type := make {
  loadTest : option (LoadTestConfig.t Matcher)
}.
End WorkflowConfig.

(** Of a [Workflow], [loadTest] reads the [config] field only. *)
Module Workflow.
Record t (Matcher : Type) : Type := make {
  config : option (WorkflowConfig.t Matcher)
}.

(** [workflow.config?.loadTest?.phases] *)
Definition phases {Matcher : Type} (w : t Matcher) : option (list Phase.t) :=
  match config w with
  | Some c =>
      match WorkflowConfig.loadTest c with
      | Some l => LoadTestConfig.phases l
      | None => None
      end
  | None => None
  end.

(** [workflow.config?.loadTest?.check] *)
Definition check {Matcher : Type} (w : t Matcher)
  : option (LoadTestCheck.t Matcher) :=
  match config w with
  | Some c =>
      match WorkflowConfig.loadTest c with
      | Some l => LoadTestConfig.check l
      | None => None
      end
  | None => None
  end.
End Workflow.

(** Of the options, [loadTest] reads [ee]: whether an event emitter was
    passed. *)
Module WorkflowOptions.
Record t : Type := make {
  path : option string;
  ee : bool
}.
End WorkflowOptions.

(** [LoadTestResult] (lines 8-28). *)
Module Tally.
Record t : Type := make {
  passed : nat;
  total : nat
}.
End Tally.

Module Stats.
Record t : Type := make {
  tests : Tally.t;
  steps : Tally.t
}.
End Stats.

Module Report.
Record t (CheckResult : Type) : Type := make {
  stats : Stats.t;
  responseTime : LoadTestMetric.t;
  iterations : nat;
  rps : number;
  duration : Z;
  passed : bool;
  checks : option (LoadTestChecksResult.t CheckResult)
}.
End Report.

Module LoadTestResult.
Record t (Matcher CheckResult : Type) : Type := make {
  workflow : Workflow.t Matcher;
  result : Report.t CheckResult
}.
End LoadTestResult.

(** ** Effects

    [loadTest] reads the wall clock, hands the phases to the scheduler (which
    calls the workflow executor), calls the check evaluator, may emit an
    event, and may throw.  A run threads a [State]: how many times the clock
    was read so far, and the trace of what was done, oldest first. *)

Inductive Event (Matcher CheckResult : Type) : Type :=
| ClockRead (ms : Z)
| RunPhases (phases : list Phase.t)
| Run (i : nat)
| CheckResultCall (k : MetricKey.t) (given : Q) (expected : Threshold Matcher)
| Emit (name : string) (payload : LoadTestResult.t Matcher CheckResult).

Arguments ClockRead {Matcher CheckResult} ms.
Arguments RunPhases {Matcher CheckResult} phases.
Arguments Run {Matcher CheckResult} i.
Arguments CheckResultCall {Matcher CheckResult} k given expected.

Record State (Matcher CheckResult : Type) : Type := mkState {
  reads : nat;
  trace : list (Event Matcher CheckResult)
}.

Definition Action (Matcher CheckResult A : Type) : Type :=
  State Matcher CheckResult -> Result A * State Matcher CheckResult.

Definition ret {Matcher CheckResult A : Type} (a : A)
  : Action Matcher CheckResult A :=
  fun s => (ok a, s).

Definition throw {Matcher CheckResult A : Type} (e : Exn)
  : Action Matcher CheckResult A :=
  fun s => (failed e, s).

Definition bind {Matcher CheckResult A B : Type}
  (m : Action Matcher CheckResult A) (k : A -> Action Matcher CheckResult B)
  : Action Matcher CheckResult B :=
  fun s =>
    match m s with
    | (inl e, s') => (inl e, s')
    | (inr a, s') => k a s'
    end.

(** A pure computation that may throw. *)
Definition lift {Matcher CheckResult A : Type} (r : Result A)
  : Action Matcher CheckResult A :=
  fun s => (r, s).

Definition log {Matcher CheckResult : Type} (es : list (Event Matcher CheckResult))
  : Action Matcher CheckResult unit :=
  fun s => (ok tt, mkState (reads s) (trace s ++ es)).

Declare Scope action_scope.
Delimit Scope action_scope with action.
Notation "x <- m ;; k" := (bind m (fun x => k))
  (at level 61, m at next level, right associativity) : action_scope.

(** [Array.prototype.flat(2)] on an array of arrays of arrays. *)
Definition flat2 {A : Type} (xsss : list (list (list A))) : list A :=
  concat (concat xsss).

(** Line 80: [result.value.result] for each settled entry.  A rejected entry
    has no [value], and [undefined.result] throws. *)
Fixpoint values_of (resultList : list (PromiseSettledResult WorkflowResult.t))
  : Result (list RunResult.t) :=
  match resultList with
  | [] => ok []
  | fulfilled value :: rest =>
      and_then (values_of rest)
               (fun results => ok (WorkflowResult.result value :: results))
  | rejected _ :: _ =>
      failed (TypeError "Cannot read properties of undefined (reading 'result')")
  end.

(** Line 86: the [passed] flag of every step, flattened. *)
Definition step_flags (results : list RunResult.t) : list bool :=
  flat2 (map (fun test =>
                map (fun test => map StepResult.passed (TestResult.steps test)) test)
             (map RunResult.tests results)).

(** Line 90: the [responseTime] of every step, flattened. *)
Definition response_times (results : list RunResult.t) : list Q :=
  flat2 (map (fun test =>
                map (fun test => map StepResult.responseTime (TestResult.steps test)) test)
             (map RunResult.tests results)).

(** The truth value JavaScript gives an entry of the check block in
    [if (check.k)]: [undefined] and the number 0 are falsy, an array (even an
    empty one) is truthy. *)
Definition truthy {Matcher : Type} (entry : option (Threshold Matcher)) : bool :=
  match entry with
  | None => false
  | Some (Bound n) => negb (Qeq_bool n 0)
  | Some (Matchers _) => true
  end.

Section Orchestrator.

Variables Matcher CheckResult : Type.

(** From [./matcher], which is not among the sources: the [passed] field of
    a [CheckResult], and the check evaluator. *)
Variable passed_of : CheckResult -> bool.
Variable checkResult : Q -> Threshold Matcher -> CheckResult.

(** The wall clock: its successive readings. *)
Variable clock : nat -> Z.

(** The scheduler (phasic) and the workflow executor ([run] of [./index]):
    how many times a schedule calls the iteration callback, and how the
    [i]-th call settles. *)
Variable arrivals : list Phase.t -> nat.
Variable run : Workflow.t Matcher -> option WorkflowOptions.t -> nat ->
               PromiseSettledResult WorkflowResult.t.

Local Abbreviation Act := (Action Matcher CheckResult).
Local Open Scope action_scope.

(** [new Date()] and [Date.now()] *)
Definition Date_now : Act Z :=
  fun s =>
    let ms := clock (reads s) in
    (ok ms, mkState (S (reads s)) (trace s ++ [ClockRead ms])).

(** [runPhases(phases, fn)]: one settled entry per call of [fn], in call
    order. *)
Definition runPhases (phases : list Phase.t)
  (fn : nat -> PromiseSettledResult WorkflowResult.t)
  : Act (list (PromiseSettledResult WorkflowResult.t)) :=
  let calls := seq 0 (arrivals phases) in
  _ <- log (RunPhases phases :: map Run calls) ;;
  ret (map fn calls).

(** One call of the check evaluator for the key [k]. *)
Definition call_checkResult (k : MetricKey.t) (given : Q)
  (expected : Threshold Matcher) : Act CheckResult :=
  _ <- log [CheckResultCall k given expected] ;;
  ret (checkResult given expected).

(** [if (check.k) { checks.k = checkResult(responseTime.k, check.k) }] *)
Definition check_key (k : MetricKey.t) (responseTime : LoadTestMetric.t)
  (check : LoadTestCheck.t Matcher) (checks : LoadTestChecksResult.t CheckResult)
  : Act (LoadTestChecksResult.t CheckResult) :=
  if truthy (LoadTestCheck.get k check) then
    match LoadTestCheck.get k check with
    | Some expected =>
        v <- call_checkResult k (metric k responseTime) expected ;;
        ret (LoadTestChecksResult.set k v checks)
    | None => ret checks
    end
  else ret checks.

(** Line 141: [Object.entries(checks as object).map(([k, v]) => v.passed)
    .every(passed => passed)]; [Object.entries(undefined)] throws. *)
Definition every_passed (checks : option (LoadTestChecksResult.t CheckResult))
  : Result bool :=
  match checks with
  | None => failed (TypeError "Cannot convert undefined or null to object")
  | Some checks =>
      ok (forallb (fun passed => passed)
                  (map (fun kv => passed_of (snd kv))
                       (LoadTestChecksResult.entries checks)))
  end.

(** [options?.ee?.emit('loadtest:result', result)] *)
Definition emit (options : option WorkflowOptions.t)
  (result : LoadTestResult.t Matcher CheckResult) : Act unit :=
  match options with
  | Some o =>
      if WorkflowOptions.ee o then log [Emit "loadtest:result" result]
      else ret tt
  | None => ret tt
  end.

(** [loadTest] (lines 75-147). *)
Definition loadTest (workflow : Workflow.t Matcher)
  (options : option WorkflowOptions.t)
  : Act (LoadTestResult.t Matcher CheckResult) :=
  match Workflow.phases workflow with
  | None => throw MissingLoadTestConfig
  | Some phases =>
      start <- Date_now ;;
      resultList <- runPhases phases (run workflow options) ;;
      results <- lift (values_of resultList) ;;
      (* Tests metrics *)
      let totalPassed :=
        filter (fun r => Bool.eqb (RunResult.passed r) true) results in
      (* Steps metrics *)
      let steps := step_flags results in
      let stepsPassed := filter (fun step => step) steps in
      (* Response metrics *)
      let responseTimes := response_times results in
      responseTime <- lift (metricsResult responseTimes) ;;
      (* Checks *)
      checks <-
        match Workflow.check workflow with
        | Some check =>
            checks <- ret LoadTestChecksResult.empty ;;
            checks <- check_key MetricKey.avg responseTime check checks ;;
            checks <- check_key MetricKey.min responseTime check checks ;;
            checks <- check_key MetricKey.max responseTime check checks ;;
            checks <- check_key MetricKey.med responseTime check checks ;;
            checks <- check_key MetricKey.p95 responseTime check checks ;;
            checks <- check_key MetricKey.p99 responseTime check checks ;;
            ret (Some checks)
        | None => ret None
        end ;;
      now_rps <- Date_now ;;
      now_duration <- Date_now ;;
      passed <- lift (every_passed checks) ;;
      let result :=
        LoadTestResult.make workflow
          (Report.make
             (Stats.make
                (* tests *)
                (Tally.make (length totalPassed) (length results))
                (* steps: passed: steps.length, total: stepsPassed.length *)
                (Tally.make (length steps) (length stepsPassed)))
             responseTime
             (* iterations *)
             (length results)
             (* rps *)
             (js_div (inject_Z (Z.of_nat (length responseTimes)))
                     (inject_Z (now_rps - start) / 1000))
             (* duration *)
             (now_duration - start)%Z
             passed
             checks) in
      _ <- emit options result ;;
      ret result
  end.

End Orchestrator.

(** ** Vocabulary of the properties *)

(** Ascending order of a sample. *)
Definition ascending (s : list Q) : Prop := StronglySorted Qle s.

(** Whether a key of the check block is there at all. *)
Definition present {Matcher : Type} (entry : option (Threshold Matcher)) : bool :=
  match entry with
  | Some _ => true
  | None => false
  end.

(** The iterations of a run that passed: the entries that fulfilled with a
    true top-level [passed] flag. *)
Definition iterations_passed
  (resultList : list (PromiseSettledResult WorkflowResult.t)) : nat :=
  length (filter (fun entry =>
                    match entry with
                    | fulfilled value => RunResult.passed (WorkflowResult.result value)
                    | rejected _ => false
                    end) resultList).

(** Every step of every test of every iteration, in order; a rejected
    iteration has none. *)
Definition all_steps
  (resultList : list (PromiseSettledResult WorkflowResult.t)) : list StepResult.t :=
  flat_map (fun entry =>
              match entry with
              | fulfilled value =>
                  flat_map TestResult.steps
                           (RunResult.tests (WorkflowResult.result value))
              | rejected _ => []
              end) resultList.

Definition steps_passed
  (resultList : list (PromiseSettledResult WorkflowResult.t)) : nat :=
  length (filter StepResult.passed (all_steps resultList)).

Definition latency_samples
  (resultList : list (PromiseSettledResult WorkflowResult.t)) : list Q :=
  map StepResult.responseTime (all_steps resultList).

Definition has_rejected
  (resultList : list (PromiseSettledResult WorkflowResult.t)) : bool :=
  existsb (fun entry =>
             match entry with
             | fulfilled _ => false
             | rejected _ => true
             end) resultList.

(** Seconds between two readings of the clock. *)
Definition elapsed_seconds (start now : Z) : Q := inject_Z (now - start) / 1000.

(** How often a trace shows the check evaluator called for the key [k], the
    scheduler called, and the iteration callback called. *)
Definition check_calls {Matcher CheckResult : Type} (k : MetricKey.t)
  (evs : list (Event Matcher CheckResult)) : nat :=
  length (filter (fun ev =>
                    match ev with
                    | CheckResultCall k' _ _ => MetricKey.eqb k k'
                    | _ => false
                    end) evs).

Definition scheduler_calls {Matcher CheckResult : Type}
  (evs : list (Event Matcher CheckResult)) : nat :=
  length (filter (fun ev =>
                    match ev with
                    | RunPhases _ => true
                    | _ => false
                    end) evs).

Definition iterations_run {Matcher CheckResult : Type}
  (evs : list (Event Matcher CheckResult)) : nat :=
  length (filter (fun ev =>
                    match ev with
                    | Run _ => true
                    | _ => false
                    end) evs).

Section Vocabulary.

Variables Matcher CheckResult : Type.
Variable checkResult : Q -> Threshold Matcher -> CheckResult.
Variable arrivals : list Phase.t -> nat.
Variable run : Workflow.t Matcher -> option WorkflowOptions.t -> nat ->
               PromiseSettledResult WorkflowResult.t.

(** The settled entries the scheduler hands back for a schedule. *)
Definition harvested (workflow : Workflow.t Matcher)
  (options : option WorkflowOptions.t) (phases : list Phase.t)
  : list (PromiseSettledResult WorkflowResult.t) :=
  map (run workflow options) (seq 0 (arrivals phases)).

(** What [if (check.k) checks.k = checkResult(responseTime.k, check.k)]
    assigns, if anything. *)
Definition evaluated (k : MetricKey.t) (responseTime : LoadTestMetric.t)
  (check : LoadTestCheck.t Matcher) : option CheckResult :=
  match LoadTestCheck.get k check with
  | Some expected =>
      if truthy (Some expected)
      then Some (checkResult (metric k responseTime) expected)
      else None
  | None => None
  end.

(** The calls of the check evaluator that go with it. *)
Definition evaluation_events (k : MetricKey.t) (responseTime : LoadTestMetric.t)
  (check : LoadTestCheck.t Matcher) : list (Event Matcher CheckResult) :=
  match LoadTestCheck.get k check with
  | Some expected =>
      if truthy (Some expected)
      then [CheckResultCall k (metric k responseTime) expected]
      else []
  | None => []
  end.

(** The checks object after the six conditional assignments. *)
Definition assigned (responseTime : LoadTestMetric.t)
  (check : LoadTestCheck.t Matcher) : LoadTestChecksResult.t CheckResult :=
  fold_left (fun checks k =>
               match evaluated k responseTime check with
               | Some v => LoadTestChecksResult.set k v checks
               | None => checks
               end) MetricKey.all LoadTestChecksResult.empty.

End Vocabulary.

Section Outcome.

Variables Matcher CheckResult : Type.
Variable passed_of : CheckResult -> bool.
Variable checkResult : Q -> Threshold Matcher -> CheckResult.

(** The calls of the check evaluator of a whole check stage, in order. *)
Definition evaluation_trace (responseTime : LoadTestMetric.t)
  (check : LoadTestCheck.t Matcher) : list (Event Matcher CheckResult) :=
  flat_map (fun k => @evaluation_events Matcher CheckResult k responseTime check)
           MetricKey.all.

(** What [options?.ee?.emit] adds to the trace. *)
Definition emit_events (options : option WorkflowOptions.t)
  (result : LoadTestResult.t Matcher CheckResult)
  : list (Event Matcher CheckResult) :=
  match options with
  | Some o => if WorkflowOptions.ee o then [Emit "loadtest:result" result] else []
  | None => []
  end.

(** The report of a run that gets through: every iteration fulfilled
    ([results]), the summary [responseTime] computed, a check block [check]
    configured, and the clock read at [start], [now_rps] and [now_duration]. *)
Definition report_of (workflow : Workflow.t Matcher)
  (results : list RunResult.t) (responseTime : LoadTestMetric.t)
  (check : LoadTestCheck.t Matcher) (start now_rps now_duration : Z)
  : LoadTestResult.t Matcher CheckResult :=
  let checks := assigned checkResult responseTime check in
  LoadTestResult.make workflow
    (Report.make
       (Stats.make
          (Tally.make
             (length (filter (fun r => Bool.eqb (RunResult.passed r) true) results))
             (length results))
          (Tally.make
             (length (step_flags results))
             (length (filter (fun step => step) (step_flags results)))))
       responseTime
       (length results)
       (js_div (inject_Z (Z.of_nat (length (response_times results))))
               (inject_Z (now_rps - start) / 1000))
       (now_duration - start)%Z
       (forallb (fun passed => passed)
                (map (fun kv => passed_of (snd kv))
                     (LoadTestChecksResult.entries checks)))
       (Some checks)).

End Outcome.

(** Claim C5 as the specification words it: the evaluator is called once
    for each key that is present in the check block and not for the others,
    and [checks] holds a result for exactly the present keys.  [before] and
    [after] are the traces around the call of [loadTest]. *)
Definition checks_follow_presence {Matcher CheckResult : Type}
  (check : LoadTestCheck.t Matcher) (checks : LoadTestChecksResult.t CheckResult)
  (before after : list (Event Matcher CheckResult)) : Prop :=
  forall k : MetricKey.t,
    check_calls k after =
      (check_calls k before +
       (if present (LoadTestCheck.get k check) then 1 else 0))%nat /\
    (LoadTestChecksResult.get k checks <> None <->
     present (LoadTestCheck.get k check) = true).

(** ** A world to run in

    Concrete collaborators, workflows and executors for the examples. *)

Module Sample.

(** Modelled from the spec: [Matcher], [CheckResult] and [checkResult] come
    from [./matcher], which is not among the sources.  A threshold is
    "either a literal numeric bound or an ordered set of comparison matchers
    (e.g. less than, at least)"; a numeric bound asks that the observed value
    equal it, a list that every matcher hold; a [CheckResult] is
    "{ passed: bool, ...matcher evaluation detail }". *)
Inductive Matcher : Type :=
| lessThan (value : Q)
| atLeast (value : Q).

Definition holds (given : Q) (m : Matcher) : bool :=
  match m with
  | lessThan value => negb (Qle_bool value given)
  | atLeast value => Qle_bool value given
  end.

Record CheckResult : Type := mkCheckResult {
  expected : Threshold Matcher;
  given : Q;
  passed : bool
}.

Definition checkResult (given : Q) (expected : Threshold Matcher) : CheckResult :=
  mkCheckResult expected given
    match expected with
    | Bound n => Qeq_bool given n
    | Matchers ms => forallb (holds given) ms
    end.

(** A clock that advances a quarter of a second between two readings. *)
Definition clock (i : nat) : Z := (1700000000000 + 250 * Z.of_nat i)%Z.

(** A scheduler that calls the callback [arrivalRate * duration] times in
    each phase. *)
Definition arrivals (phases : list Phase.t) : nat :=
  fold_right (fun p n =>
                (Z.to_nat (Qfloor (Phase.arrivalRate p * Phase.duration p)) + n)%nat)
             0%nat phases.

(** One second at two arrivals per second. *)
Definition schedule : list Phase.t := [Phase.make 1 2].

(** An executor whose first iteration passes and whose later ones fail a
    step. *)
Definition run_mixed (workflow : Workflow.t Matcher)
  (options : option WorkflowOptions.t) (i : nat)
  : PromiseSettledResult WorkflowResult.t :=
  if (i =? 0)%nat then
    fulfilled (WorkflowResult.make
      (RunResult.make
         [TestResult.make [StepResult.make true 50; StepResult.make true 70]]
         true))
  else
    fulfilled (WorkflowResult.make
      (RunResult.make
         [TestResult.make [StepResult.make true 50; StepResult.make false 150]]
         false)).

(** An executor whose second iteration fails to run at all. *)
Definition run_rejecting (workflow : Workflow.t Matcher)
  (options : option WorkflowOptions.t) (i : nat)
  : PromiseSettledResult WorkflowResult.t :=
  if (i =? 1)%nat then rejected "connect ECONNREFUSED"
  else run_mixed workflow options i.

Definition with_load_test (check : option (LoadTestCheck.t Matcher))
  : Workflow.t Matcher :=
  Workflow.make
    (Some (WorkflowConfig.make (Some (LoadTestConfig.make (Some schedule) check)))).

(** No [config] at all. *)
Definition without_config : Workflow.t Matcher := Workflow.make None.

(** [loadTest: { phases: [...] }] *)
Definition without_check : Workflow.t Matcher := with_load_test None.

(** [loadTest: { phases: [...], check: {} }] *)
Definition with_empty_check : Workflow.t Matcher :=
  with_load_test (Some (LoadTestCheck.make None None None None None None)).

(** [loadTest: { phases: [...], check: { avg: [{ lessThan: 100 }], p95: 0 } }] *)
Definition with_checks : Workflow.t Matcher :=
  with_load_test
    (Some (LoadTestCheck.make (Some (Matchers [lessThan 100])) None None None
                              (Some (Bound 0)) None)).

Definition initial : State Matcher CheckResult := mkState 0 [].

(** [loadTest] in this world, with either executor. *)
Definition loadTest_mixed :=
  loadTest passed checkResult clock arrivals run_mixed.

Definition loadTest_rejecting :=
  loadTest passed checkResult clock arrivals run_rejecting.

End Sample.

(** ** More vocabulary *)

(** The events a trace shows emitted, with their payloads, oldest first. *)
Definition emitted {Matcher CheckResult : Type}
  (evs : list (Event Matcher CheckResult))
  : list (string * LoadTestResult.t Matcher CheckResult) :=
  flat_map (fun ev =>
              match ev with
              | Emit name payload => [(name, payload)]
              | _ => []
              end) evs.

(** Whether the caller passed an event emitter ([options?.ee]). *)
Definition has_emitter (options : option WorkflowOptions.t) : bool :=
  match options with
  | Some o => WorkflowOptions.ee o
  | None => false
  end.

(** Claim C4 as the specification words it: a workflow must "declare a
    load-test configuration with at least one phase"; one that declares no
    phase lacks the block, lacks the key, or has the empty array. *)
Definition declares_no_phase {Matcher : Type} (workflow : Workflow.t Matcher)
  : bool :=
  match Workflow.phases workflow with
  | None => true
  | Some [] => true
  | Some (_ :: _) => false
  end.

(** ** [loadTestFromFile] (lines 68-72) *)

(** How a call of [loadTestFromFile] can fail: [fs.promises.readFile]
    rejected, [yaml.load] threw, or something was thrown further on. *)
Inductive FileExn : Type :=
| ReadError (reason : string)
| YAMLException (reason : string)
| Thrown (e : Exn).

(** What [yaml.load] hands back, read [as Workflow]: [undefined] (an empty
    document), [null], or a value whose [config] can be read. *)
Inductive YamlDocument (Matcher : Type) : Type :=
| YamlUndefined
| YamlNull
| YamlValue (config : Workflow.t Matcher).

Arguments YamlUndefined {Matcher}.
Arguments YamlNull {Matcher}.

(** [{ ...options, path }]: the caller's options with [path] replaced;
    spreading [undefined] gives no property. *)
Definition with_path (options : option WorkflowOptions.t) (path : string)
  : WorkflowOptions.t :=
  WorkflowOptions.make (Some path)
    match options with
    | Some o => WorkflowOptions.ee o
    | None => false
    end.

Section FromFile.

Variables Matcher CheckResult : Type.
Variable passed_of : CheckResult -> bool.
Variable checkResult : Q -> Threshold Matcher -> CheckResult.
Variable clock : nat -> Z.
Variable arrivals : list Phase.t -> nat.
Variable run : Workflow.t Matcher -> option WorkflowOptions.t -> nat ->
               PromiseSettledResult WorkflowResult.t.

(** The file system and the YAML parser: the text of the file at a path, or
    why it cannot be read; the document of a text, or why it cannot be
    parsed. *)
Variable readFile : string -> string + string.
Variable yaml_load : string -> string + YamlDocument Matcher.

(** [loadTestFromFile].  On a document that is [undefined] or [null], line 76
    reads [workflow.config] and throws. *)
Definition loadTestFromFile (path : string) (options : option WorkflowOptions.t)
  : State Matcher CheckResult ->
    (FileExn + LoadTestResult.t Matcher CheckResult) * State Matcher CheckResult :=
  fun s =>
    match readFile path with
    | inl reason => (inl (ReadError reason), s)
    | inr testFile =>
        match yaml_load testFile with
        | inl reason => (inl (YAMLException reason), s)
        | inr YamlUndefined =>
            (inl (Thrown (TypeError
               "Cannot read properties of undefined (reading 'config')")), s)
        | inr YamlNull =>
            (inl (Thrown (TypeError
               "Cannot read properties of null (reading 'config')")), s)
        | inr (YamlValue config) =>
            match loadTest passed_of checkResult clock arrivals run
                           config (Some (with_path options path)) s with
            | (inl e, s') => (inl (Thrown e), s')
            | (inr result, s') => (inr result, s')
            end
        end
    end.

End FromFile.

(** ** Files for the sample world *)

Module SampleFiles.

(** One file, [load.yml], with unparsed text; [broken.yml] holds text that is
    not YAML; [empty.yml] holds nothing. *)
Definition readFile (path : string) : string + string :=
  if String.eqb path "load.yml" then inr "checks"%string
  else if String.eqb path "broken.yml" then inr "{"%string
  else if String.eqb path "empty.yml" then inr ""%string
  else inl "ENOENT: no such file or directory"%string.

Definition yaml_load (text : string) : string + YamlDocument Sample.Matcher :=
  if String.eqb text "checks" then inr (YamlValue Sample.with_checks)
  else if String.eqb text "" then inr YamlUndefined
  else inl "unexpected end of the stream within a flow mapping"%string.

Definition loadTestFromFile :=
  loadTestFromFile Sample.passed Sample.checkResult Sample.clock Sample.arrivals
                   Sample.run_mixed readFile yaml_load.

(** [loadTest: { phases: [], check: {} }]: a schedule that asks for no
    iteration. *)
Definition without_arrivals : Workflow.t Sample.Matcher :=
  Workflow.make
    (Some (WorkflowConfig.make
       (Some (LoadTestConfig.make
          (Some [])
          (Some (LoadTestCheck.make None None None None None None)))))).

(** Options that carry an event emitter. *)
Definition listening : option WorkflowOptions.t :=
  Some (WorkflowOptions.make None true).

End SampleFiles.
(** * Properties *)

(** ** The statistics primitives *)

Module StatisticsFacts.
Import SimpleStatistics.

Lemma insert_length (v : Q) (s : list Q) :
  length (insert v s) = S (length s).
Proof.
  induction s as [|w s IH]; simpl; [reflexivity|].
  destruct (Qle_bool v w); simpl; [reflexivity|now rewrite IH].
Qed.

Lemma sort_length (x : list Q) : length (sort x) = length x.
Proof.
  induction x as [|v x IH]; simpl; [reflexivity|].
  now rewrite insert_length, IH.
Qed.

Lemma insert_In (v y : Q) (s : list Q) :
  In y (insert v s) <-> y = v \/ In y s.
Proof.
  induction s as [|w s IH]; simpl.
  - intuition.
  - destruct (Qle_bool v w); simpl; [intuition|].
    rewrite IH. intuition.
Qed.

Lemma sort_In (y : Q) (x : list Q) : In y (sort x) <-> In y x.
Proof.
  induction x as [|v x IH]; simpl; [reflexivity|].
  rewrite insert_In, IH. intuition.
Qed.

Lemma insert_ascending (v : Q) (s : list Q) :
  ascending s -> ascending (insert v s).
Proof.
  unfold ascending.
  induction s as [|w s IH]; intros Hs; simpl.
  - constructor; constructor.
  - inversion Hs as [|? ? Hs' Hw]; subst.
    destruct (Qle_bool v w) eqn:E.
    + apply Qle_bool_iff in E.
      constructor; [assumption|].
      constructor; [assumption|].
      rewrite Forall_forall in *. intros y Hy.
      apply Qle_trans with w; auto.
    + assert (Hwv : w <= v).
      { apply Qlt_le_weak, Qnot_le_lt. intro H.
        apply Qle_bool_iff in H. congruence. }
      constructor; [auto|].
      rewrite Forall_forall in *. intros y Hy.
      apply insert_In in Hy. destruct Hy as [->|Hy]; auto.
Qed.

Lemma sort_ascending (x : list Q) : ascending (sort x).
Proof.
  induction x as [|v x IH]; simpl.
  - constructor.
  - now apply insert_ascending.
Qed.

Lemma ascending_nth (s : list Q) :
  ascending s ->
  forall (i j : nat) (d d' : Q),
    (i <= j)%nat -> (j < length s)%nat -> nth i s d <= nth j s d'.
Proof.
  unfold ascending.
  induction 1 as [|w s Hs IH Hw]; intros i j d d' Hij Hj; simpl in Hj.
  - lia.
  - destruct i as [|i], j as [|j]; simpl; try lia.
    + apply Qle_refl.
    + rewrite Forall_forall in Hw. apply Hw, nth_In. lia.
    + apply IH; lia.
Qed.


(** The position [h = (n - 1) * p] of a quantile and its floor stay inside
    the sample. *)
Lemma position_range (n : nat) (p : Q) :
  (0 < n)%nat -> 0 <= p -> p <= 1 ->
  let h := inject_Z (Z.of_nat n - 1) * p in
  0 <= h /\ h <= inject_Z (Z.of_nat n - 1) /\
  (0 <= Qfloor h)%Z /\ (Qfloor h <= Z.of_nat n - 1)%Z.
Proof.
  intros Hn Hp0 Hp1 h.
  assert (Hc : 0 <= inject_Z (Z.of_nat n - 1)).
  { change 0 with (inject_Z 0). rewrite <- Zle_Qle. lia. }
  assert (H0 : 0 <= h) by (unfold h; nra).
  assert (H1 : h <= inject_Z (Z.of_nat n - 1)) by (unfold h; nra).
  repeat split; try assumption.
  - change 0%Z with (Qfloor 0). now apply Qfloor_resp_le.
  - rewrite <- (Qfloor_Z (Z.of_nat n - 1)). now apply Qfloor_resp_le.
Qed.

Lemma fraction_range (h : Q) :
  0 <= h - inject_Z (Qfloor h) /\ h - inject_Z (Qfloor h) <= 1.
Proof.
  pose proof (Qfloor_le h) as Hle.
  pose proof (Qlt_floor h) as Hlt.
  rewrite inject_Z_plus in Hlt.
  change (inject_Z 1) with 1 in Hlt.
  split; lra.
Qed.

(** The two samples a quantile is interpolated between, by index: the one at
    the floor of the position and the next one, if there is one. *)
Lemma quantileSorted_bracket (s : list Q) (p : Q) :
  s <> [] -> 0 <= p -> p <= 1 ->
  exists a : nat,
    Z.of_nat a = Qfloor (inject_Z (Z.of_nat (length s) - 1) * p) /\
    (a < length s)%nat /\
    quantileSorted s p =
      nth a s 0 +
      (inject_Z (Z.of_nat (length s) - 1) * p - inject_Z (Z.of_nat a)) *
      (nth (Nat.min (S a) (length s - 1)) s 0 - nth a s 0).
Proof.
  intros Hne Hp0 Hp1.
  assert (Hn : (0 < length s)%nat) by (destruct s; simpl; [congruence|lia]).
  destruct (position_range Hn Hp0 Hp1) as (_ & _ & Hlo0 & Hlo1).
  set (h := inject_Z (Z.of_nat (length s) - 1) * p) in *.
  set (a := Z.to_nat (Qfloor h)).
  assert (Ha : Z.of_nat a = Qfloor h) by (unfold a; lia).
  assert (Hsucc : Z.to_nat (Qfloor h + 1) = S a) by (unfold a; lia).
  exists a. repeat split; try lia.
  unfold quantileSorted. fold h. fold a. rewrite Hsucc, Ha.
  destruct (Nat.lt_ge_cases (S a) (length s)) as [Hin|Hout].
  - replace (Nat.min (S a) (length s - 1)) with (S a) by lia.
    now rewrite (nth_indep s (nth a s 0) 0 Hin).
  - replace (Nat.min (S a) (length s - 1)) with a by lia.
    now rewrite (nth_overflow s (nth a s 0) Hout).
Qed.

(** A quantile lies between two samples. *)
Lemma quantileSorted_between (s : list Q) (p : Q) :
  ascending s -> s <> [] -> 0 <= p -> p <= 1 ->
  exists lo hi : Q,
    In lo s /\ In hi s /\ lo <= quantileSorted s p /\ quantileSorted s p <= hi.
Proof.
  intros Hs Hne Hp0 Hp1.
  destruct (quantileSorted_bracket Hne Hp0 Hp1) as (a & Ha & Hlt & ->).
  set (b := Nat.min (S a) (length s - 1)).
  assert (Hle : nth a s 0 <= nth b s 0)
    by (apply ascending_nth; [assumption|unfold b; lia|unfold b; lia]).
  exists (nth a s 0), (nth b s 0).
  pose proof (fraction_range (inject_Z (Z.of_nat (length s) - 1) * p)) as Hf.
  rewrite <- Ha in Hf.
  repeat split; try (apply nth_In; unfold b; lia); nra.
Qed.

(** Quantiles grow with [p]. *)
Lemma quantileSorted_mono (s : list Q) (p q : Q) :
  ascending s -> s <> [] -> 0 <= p -> p <= q -> q <= 1 ->
  quantileSorted s p <= quantileSorted s q.
Proof.
  intros Hs Hne Hp0 Hpq Hq1.
  assert (Hp1 : p <= 1) by lra.
  assert (Hq0 : 0 <= q) by lra.
  destruct (quantileSorted_bracket Hne Hp0 Hp1) as (a & Ha & Hlt & ->).
  destruct (quantileSorted_bracket Hne Hq0 Hq1) as (a' & Ha' & Hlt' & ->).
  assert (Hc : 0 <= inject_Z (Z.of_nat (length s) - 1)).
  { change 0 with (inject_Z 0). rewrite <- Zle_Qle. lia. }
  set (c := inject_Z (Z.of_nat (length s) - 1)) in *.
  assert (Hh : c * p <= c * q) by nra.
  pose proof (fraction_range (c * p)) as Hf.
  pose proof (fraction_range (c * q)) as Hf'.
  rewrite <- Ha in Hf. rewrite <- Ha' in Hf'.
  assert (Haa : (a <= a')%nat).
  { apply Nat2Z.inj_le. rewrite Ha, Ha'. now apply Qfloor_resp_le. }
  set (b := Nat.min (S a) (length s - 1)).
  set (b' := Nat.min (S a') (length s - 1)).
  assert (Hle : nth a s 0 <= nth b s 0)
    by (apply ascending_nth; [assumption|unfold b; lia|unfold b; lia]).
  assert (Hle' : nth a' s 0 <= nth b' s 0)
    by (apply ascending_nth; [assumption|unfold b'; lia|unfold b'; lia]).
  destruct (Nat.eq_dec a a') as [Heq|Hneq].
  - (* same bracket: the interpolation weight grows *)
    subst a'. subst b'. fold b. nra.
  - (* a later bracket starts at or above the end of this one *)
    assert (Hmid : nth b s 0 <= nth a' s 0)
      by (apply ascending_nth; [assumption|unfold b; lia|lia]).
    nra.
Qed.

(** The extrema bound every sample. *)
Lemma fold_Qmin_le_start (l : list Q) (a : Q) : fold_left Qmin l a <= a.
Proof.
  revert a. induction l as [|w l IH]; intros a; simpl.
  - apply Qle_refl.
  - apply Qle_trans with (Qmin a w); [apply IH|apply Q.le_min_l].
Qed.

Lemma fold_Qmin_le_In (l : list Q) (a y : Q) :
  In y l -> fold_left Qmin l a <= y.
Proof.
  revert a. induction l as [|w l IH]; intros a Hy; simpl in *; [easy|].
  destruct Hy as [->|Hy]; [|now apply IH].
  apply Qle_trans with (Qmin a y); [apply fold_Qmin_le_start|apply Q.le_min_r].
Qed.

Lemma fold_Qmax_ge_start (l : list Q) (a : Q) : a <= fold_left Qmax l a.
Proof.
  revert a. induction l as [|w l IH]; intros a; simpl.
  - apply Qle_refl.
  - apply Qle_trans with (Qmax a w); [apply Q.le_max_l|apply IH].
Qed.

Lemma fold_Qmax_ge_In (l : list Q) (a y : Q) :
  In y l -> y <= fold_left Qmax l a.
Proof.
  revert a. induction l as [|w l IH]; intros a Hy; simpl in *; [easy|].
  destruct Hy as [->|Hy]; [|now apply IH].
  apply Qle_trans with (Qmax a y); [apply Q.le_max_r|apply fold_Qmax_ge_start].
Qed.

Lemma min_lower (x : list Q) (m y : Q) : min x = ok m -> In y x -> m <= y.
Proof.
  destruct x as [|v x]; simpl; [discriminate|].
  intros [= <-] [<-|Hy].
  - apply fold_Qmin_le_start.
  - now apply fold_Qmin_le_In.
Qed.

Lemma max_upper (x : list Q) (m y : Q) : max x = ok m -> In y x -> y <= m.
Proof.
  destruct x as [|v x]; simpl; [discriminate|].
  intros [= <-] [<-|Hy].
  - apply fold_Qmax_ge_start.
  - now apply fold_Qmax_ge_In.
Qed.

(** A sum lies between [n] times a lower and [n] times an upper bound of its
    terms. *)
Lemma inject_length_cons (w : Q) (l : list Q) :
  inject_Z (Z.of_nat (length (w :: l))) == inject_Z (Z.of_nat (length l)) + 1.
Proof.
  simpl length. rewrite Nat2Z.inj_succ. unfold Z.succ.
  now rewrite inject_Z_plus.
Qed.

Lemma fold_Qplus_lower (l : list Q) (a lo : Q) :
  (forall y, In y l -> lo <= y) ->
  a + lo * inject_Z (Z.of_nat (length l)) <= fold_left Qplus l a.
Proof.
  revert a. induction l as [|w l IH]; intros a Hlo.
  - simpl. change (inject_Z 0) with 0. lra.
  - rewrite inject_length_cons. simpl fold_left.
    assert (Hw : lo <= w) by (apply Hlo; now left).
    assert (IH' := IH (a + w) (fun y Hy => Hlo y (or_intror Hy))).
    lra.
Qed.

Lemma fold_Qplus_upper (l : list Q) (a hi : Q) :
  (forall y, In y l -> y <= hi) ->
  fold_left Qplus l a <= a + hi * inject_Z (Z.of_nat (length l)).
Proof.
  revert a. induction l as [|w l IH]; intros a Hhi.
  - simpl. change (inject_Z 0) with 0. lra.
  - rewrite inject_length_cons. simpl fold_left.
    assert (Hw : w <= hi) by (apply Hhi; now left).
    assert (IH' := IH (a + w) (fun y Hy => Hhi y (or_intror Hy))).
    lra.
Qed.

Lemma mean_between (x : list Q) (lo hi m : Q) :
  (forall y, In y x -> lo <= y) ->
  (forall y, In y x -> y <= hi) ->
  mean x = ok m -> lo <= m /\ m <= hi.
Proof.
  intros Hlo Hhi.
  destruct x as [|v x]; [discriminate|].
  pose proof (fold_Qplus_lower (v :: x) 0 Hlo) as Hl.
  pose proof (fold_Qplus_upper (v :: x) 0 Hhi) as Hu.
  unfold mean.
  set (n := inject_Z (Z.of_nat (length (v :: x)))) in *.
  assert (Hn : 0 < n).
  { unfold n. change 0 with (inject_Z 0). rewrite <- Zlt_Qlt. simpl. lia. }
  fold (sum (v :: x)) in Hl, Hu.
  intros E. injection E as <-.
  split.
  - apply Qle_shift_div_l; [assumption|lra].
  - apply Qle_shift_div_r; [assumption|lra].
Qed.

(** A quantile of a non-empty sample, between the extrema. *)
Lemma quantile_between (x : list Q) (p lo hi v : Q) :
  0 <= p -> p <= 1 ->
  min x = ok lo -> max x = ok hi -> quantile x p = ok v ->
  lo <= v /\ v <= hi.
Proof.
  intros Hp0 Hp1 Hmin Hmax Hq.
  destruct x as [|w x]; [discriminate|].
  set (l := w :: x) in *.
  injection Hq as <-.
  change (insert w (sort x)) with (sort l).
  assert (Hne : sort l <> []).
  { intro E. apply (f_equal (@length Q)) in E.
    rewrite sort_length in E. discriminate. }
  destruct (quantileSorted_between (sort_ascending l) Hne Hp0 Hp1)
    as (a & b & Ha & Hb & Hav & Hvb).
  rewrite sort_In in Ha, Hb.
  split.
  - apply Qle_trans with a; [eapply min_lower; eassumption|assumption].
  - apply Qle_trans with b; [assumption|eapply max_upper; eassumption].
Qed.

End StatisticsFacts.

(** C6.  For every non-empty sequence of latency samples, [metricsResult]
    returns a summary, and the summary satisfies
    min <= med <= p95 <= p99 <= max and min <= avg <= max. *)
Theorem metricsResult_ordered (numbers : list Q) :
  numbers <> [] ->
  exists m : LoadTestMetric.t,
    metricsResult numbers = ok m /\
    LoadTestMetric.min m <= LoadTestMetric.med m /\
    LoadTestMetric.med m <= LoadTestMetric.p95 m /\
    LoadTestMetric.p95 m <= LoadTestMetric.p99 m /\
    LoadTestMetric.p99 m <= LoadTestMetric.max m /\
    LoadTestMetric.min m <= LoadTestMetric.avg m /\
    LoadTestMetric.avg m <= LoadTestMetric.max m.
Proof.
  intros Hne.
  destruct numbers as [|v x]; [congruence|].
  set (l := v :: x) in *.
  assert (Hsorted : SimpleStatistics.sort l <> []).
  { intro E. apply (f_equal (@length Q)) in E.
    rewrite StatisticsFacts.sort_length in E. discriminate. }
  eexists. split; [reflexivity|]. cbn [LoadTestMetric.min LoadTestMetric.med
    LoadTestMetric.p95 LoadTestMetric.p99 LoadTestMetric.max LoadTestMetric.avg].
  fold l.
  assert (Hmin : SimpleStatistics.min l = ok (fold_left Qmin x v)) by reflexivity.
  assert (Hmax : SimpleStatistics.max l = ok (fold_left Qmax x v)) by reflexivity.
  pose proof (StatisticsFacts.sort_ascending l) as Hasc.
  repeat split.
  - apply (@StatisticsFacts.quantile_between l (1 # 2) _ (fold_left Qmax x v));
      [lra|lra|assumption|assumption|reflexivity].
  - apply StatisticsFacts.quantileSorted_mono; [assumption|assumption|lra|lra|lra].
  - apply StatisticsFacts.quantileSorted_mono; [assumption|assumption|lra|lra|lra].
  - apply (@StatisticsFacts.quantile_between l (99 # 100) (fold_left Qmin x v));
      [lra|lra|assumption|assumption|reflexivity].
  - apply (@StatisticsFacts.mean_between l _ (fold_left Qmax x v));
      [intros y Hy; eapply StatisticsFacts.min_lower; eassumption
      |intros y Hy; eapply StatisticsFacts.max_upper; eassumption
      |reflexivity].
  - apply (@StatisticsFacts.mean_between l (fold_left Qmin x v));
      [intros y Hy; eapply StatisticsFacts.min_lower; eassumption
      |intros y Hy; eapply StatisticsFacts.max_upper; eassumption
      |reflexivity].
Qed.

(** ** The orchestrator *)

Section OrchestratorFacts.

Variables Matcher CheckResult : Type.
Variable passed_of : CheckResult -> bool.
Variable checkResult : Q -> Threshold Matcher -> CheckResult.
Variable clock : nat -> Z.
Variable arrivals : list Phase.t -> nat.
Variable run : Workflow.t Matcher -> option WorkflowOptions.t -> nat ->
               PromiseSettledResult WorkflowResult.t.

Local Abbreviation loadTest' := (loadTest passed_of checkResult clock arrivals run).
Local Abbreviation harvested' := (harvested arrivals run).
Local Abbreviation St := (State Matcher CheckResult).

(** *** Harvesting *)

Lemma values_of_fulfilled (resultList : list (PromiseSettledResult WorkflowResult.t))
  (results : list RunResult.t) :
  values_of resultList = ok results ->
  resultList = map (fun r => fulfilled (WorkflowResult.make r)) results.
Proof.
  revert results.
  induction resultList as [|[[r]|reason] rest IH]; intros results H; simpl in H.
  - injection H as <-. reflexivity.
  - destruct (values_of rest) as [e|rs]; simpl in H; [discriminate|].
    injection H as <-. simpl. now rewrite <- (IH rs eq_refl).
  - discriminate.
Qed.

Lemma values_of_rejected (resultList : list (PromiseSettledResult WorkflowResult.t)) :
  has_rejected resultList = true ->
  values_of resultList =
    failed (TypeError "Cannot read properties of undefined (reading 'result')").
Proof.
  induction resultList as [|[v|reason] rest IH]; simpl; intros H.
  - discriminate.
  - now rewrite (IH H).
  - reflexivity.
Qed.

Lemma values_of_total (results : list RunResult.t) :
  values_of (map (fun r => fulfilled (WorkflowResult.make r)) results) = ok results.
Proof.
  induction results as [|r results IH]; simpl; [reflexivity|].
  now rewrite IH.
Qed.

Lemma concat_steps {A : Type} (f : StepResult.t -> A) (tests : list TestResult.t) :
  concat (map (fun test => map f (TestResult.steps test)) tests) =
  map f (flat_map TestResult.steps tests).
Proof.
  induction tests as [|t tests IH]; simpl; [reflexivity|].
  now rewrite map_app, IH.
Qed.

Lemma flat2_steps {A : Type} (f : StepResult.t -> A) (results : list RunResult.t) :
  flat2 (map (fun test => map (fun test => map f (TestResult.steps test)) test)
             (map RunResult.tests results)) =
  map f (all_steps (map (fun r => fulfilled (WorkflowResult.make r)) results)).
Proof.
  unfold flat2, all_steps.
  induction results as [|r results IH]; simpl; [reflexivity|].
  now rewrite concat_app, map_app, concat_steps, IH.
Qed.

Lemma filter_map_length {A : Type} (f : A -> bool) (l : list A) :
  length (filter (fun b : bool => b) (map f l)) = length (filter f l).
Proof.
  induction l as [|a l IH]; simpl; [reflexivity|].
  destruct (f a); simpl; now rewrite IH.
Qed.

Lemma filter_length_le {A : Type} (f : A -> bool) (l : list A) :
  (length (filter f l) <= length l)%nat.
Proof.
  induction l as [|a l IH]; simpl; [lia|].
  destruct (f a); simpl; lia.
Qed.

Lemma iterations_passed_fulfilled (results : list RunResult.t) :
  iterations_passed (map (fun r => fulfilled (WorkflowResult.make r)) results) =
  length (filter (fun r => Bool.eqb (RunResult.passed r) true) results).
Proof.
  unfold iterations_passed.
  induction results as [|r results IH]; simpl; [reflexivity|].
  destruct (RunResult.passed r); simpl; now rewrite IH.
Qed.

(** *** One run, step by step *)

Lemma check_key_run (k : MetricKey.t) (responseTime : LoadTestMetric.t)
  (check : LoadTestCheck.t Matcher) (checks : LoadTestChecksResult.t CheckResult)
  (s : St) :
  check_key checkResult k responseTime check checks s =
  (ok match evaluated checkResult k responseTime check with
      | Some v => LoadTestChecksResult.set k v checks
      | None => checks
      end,
   mkState (reads s)
           (trace s ++ @evaluation_events Matcher CheckResult k responseTime check)).
Proof.
  unfold check_key, evaluated, evaluation_events.
  destruct (LoadTestCheck.get k check) as [expected|].
  - destruct (truthy (Some expected)).
    + reflexivity.
    + destruct s; unfold ret; simpl. now rewrite app_nil_r.
  - destruct s; unfold ret; simpl. now rewrite app_nil_r.
Qed.

Lemma emit_run (options : option WorkflowOptions.t)
  (result : LoadTestResult.t Matcher CheckResult) (s : St) :
  emit options result s =
  (ok tt, mkState (reads s) (trace s ++ emit_events options result)).
Proof.
  unfold emit, emit_events.
  destruct options as [o|]; [destruct (WorkflowOptions.ee o)|];
    try reflexivity; destruct s; unfold ret; simpl; now rewrite app_nil_r.
Qed.

(** What a call of [loadTest] does, by the cases of its input. *)
Lemma loadTest_run (workflow : Workflow.t Matcher)
  (options : option WorkflowOptions.t) (st : St) :
  loadTest' workflow options st =
  match Workflow.phases workflow with
  | None => (failed MissingLoadTestConfig, st)
  | Some phases =>
      let start := clock (reads st) in
      let now_rps := clock (S (reads st)) in
      let now_duration := clock (S (S (reads st))) in
      let scheduled :=
        trace st ++ [ClockRead start] ++
        RunPhases phases :: map Run (seq 0 (arrivals phases)) in
      match values_of (harvested' workflow options phases) with
      | inl e => (inl e, mkState (S (reads st)) scheduled)
      | inr results =>
          match metricsResult (response_times results) with
          | inl e => (inl e, mkState (S (reads st)) scheduled)
          | inr responseTime =>
              match Workflow.check workflow with
              | None =>
                  (failed (TypeError "Cannot convert undefined or null to object"),
                   mkState (S (S (S (reads st))))
                           (scheduled ++
                            [ClockRead now_rps; ClockRead now_duration]))
              | Some check =>
                  let result :=
                    report_of passed_of checkResult workflow results
                              responseTime check start now_rps now_duration in
                  (ok result,
                   mkState (S (S (S (reads st))))
                           (scheduled ++
                            @evaluation_trace Matcher CheckResult responseTime check ++
                            [ClockRead now_rps; ClockRead now_duration] ++
                            emit_events options result))
              end
          end
      end
  end.
Proof.
  unfold loadTest, harvested.
  destruct (Workflow.phases workflow) as [phases|]; [|reflexivity].
  cbv beta iota zeta delta [bind Date_now runPhases log lift ret throw ok failed].
  cbn [reads trace].
  destruct (values_of (map (run workflow options) (seq 0 (arrivals phases))))
    as [e|results].
  { now rewrite <- app_assoc. }
  destruct (metricsResult (response_times results)) as [e|responseTime].
  { now rewrite <- app_assoc. }
  destruct (Workflow.check workflow) as [check|].
  - do 6 (rewrite check_key_run; cbv beta iota zeta delta [ok]).
    cbn [reads trace every_passed]. cbv beta iota zeta delta [ok failed].
    rewrite emit_run.
    cbv beta iota zeta delta [ok]. cbn [reads trace].
    f_equal. f_equal.
    unfold evaluation_trace. cbn [flat_map MetricKey.all].
    rewrite app_nil_r.
    repeat rewrite <- app_assoc. reflexivity.
  - cbn [reads trace every_passed]. cbv beta iota zeta delta [ok failed].
    repeat rewrite <- app_assoc. reflexivity.
Qed.

(** A call that returns a report went through every stage. *)
Lemma loadTest_returned (workflow : Workflow.t Matcher)
  (options : option WorkflowOptions.t) (st st' : St)
  (r : LoadTestResult.t Matcher CheckResult) :
  loadTest' workflow options st = (ok r, st') ->
  exists phases results responseTime check,
    Workflow.phases workflow = Some phases /\
    Workflow.check workflow = Some check /\
    harvested' workflow options phases =
      map (fun r => fulfilled (WorkflowResult.make r)) results /\
    metricsResult (response_times results) = ok responseTime /\
    r = report_of passed_of checkResult workflow results responseTime check
                  (clock (reads st)) (clock (S (reads st)))
                  (clock (S (S (reads st)))) /\
    trace st' =
      trace st ++ [ClockRead (clock (reads st))] ++
      (RunPhases phases :: map Run (seq 0 (arrivals phases))) ++
      @evaluation_trace Matcher CheckResult responseTime check ++
      [ClockRead (clock (S (reads st))); ClockRead (clock (S (S (reads st))))] ++
      emit_events options r.
Proof.
  rewrite loadTest_run.
  destruct (Workflow.phases workflow) as [phases|]; [|discriminate].
  cbv zeta.
  destruct (values_of (harvested' workflow options phases)) as [e|results] eqn:Hv;
    [discriminate|].
  destruct (metricsResult (response_times results)) as [e|responseTime] eqn:Hm;
    [discriminate|].
  destruct (Workflow.check workflow) as [check|]; [|discriminate].
  intros H. injection H as <- <-.
  exists phases, results, responseTime, check.
  repeat split; try reflexivity; try exact Hm.
  - now apply values_of_fulfilled.
  - cbn [trace app]. rewrite <- app_assoc. reflexivity.
Qed.

(** A call whose input lets every stage through returns the report. *)
Lemma loadTest_returns (workflow : Workflow.t Matcher)
  (options : option WorkflowOptions.t) (st : St)
  (phases : list Phase.t) (results : list RunResult.t)
  (responseTime : LoadTestMetric.t) (check : LoadTestCheck.t Matcher) :
  Workflow.phases workflow = Some phases ->
  Workflow.check workflow = Some check ->
  values_of (harvested' workflow options phases) = ok results ->
  metricsResult (response_times results) = ok responseTime ->
  fst (loadTest' workflow options st) =
  ok (report_of passed_of checkResult workflow results responseTime check
                (clock (reads st)) (clock (S (reads st)))
                (clock (S (S (reads st))))).
Proof.
  intros Hp Hc Hv Hm.
  rewrite loadTest_run, Hp. cbv zeta.
  rewrite Hv. cbv beta iota delta [ok].
  rewrite Hm. cbv beta iota delta [ok].
  rewrite Hc. reflexivity.
Qed.

(** *** Counting calls in a trace *)

Lemma check_calls_app (k : MetricKey.t) (a b : list (Event Matcher CheckResult)) :
  check_calls k (a ++ b) = (check_calls k a + check_calls k b)%nat.
Proof.
  unfold check_calls. now rewrite filter_app, length_app.
Qed.

Lemma check_calls_runs (k : MetricKey.t) (calls : list nat) :
  check_calls k (map (@Run Matcher CheckResult) calls) = 0%nat.
Proof.
  induction calls as [|i calls IH]; [reflexivity|exact IH].
Qed.

Lemma check_calls_emit (k : MetricKey.t) (options : option WorkflowOptions.t)
  (r : LoadTestResult.t Matcher CheckResult) :
  check_calls k (emit_events options r) = 0%nat.
Proof.
  destruct options as [o|]; [|reflexivity].
  unfold emit_events. now destruct (WorkflowOptions.ee o).
Qed.

Lemma check_calls_events (k k' : MetricKey.t) (responseTime : LoadTestMetric.t)
  (check : LoadTestCheck.t Matcher) :
  check_calls k (@evaluation_events Matcher CheckResult k' responseTime check) =
  if MetricKey.eqb k k'
  then if truthy (LoadTestCheck.get k' check) then 1%nat else 0%nat
  else 0%nat.
Proof.
  unfold evaluation_events.
  destruct (LoadTestCheck.get k' check) as [expected|].
  - destruct (truthy (Some expected)); unfold check_calls; simpl;
      now destruct (MetricKey.eqb k k').
  - now destruct (MetricKey.eqb k k').
Qed.

Lemma check_calls_evaluation (k : MetricKey.t) (responseTime : LoadTestMetric.t)
  (check : LoadTestCheck.t Matcher) :
  check_calls k (@evaluation_trace Matcher CheckResult responseTime check) =
  if truthy (LoadTestCheck.get k check) then 1%nat else 0%nat.
Proof.
  unfold evaluation_trace. cbn [flat_map MetricKey.all].
  rewrite !check_calls_app, !check_calls_events.
  destruct k; cbn [MetricKey.eqb];
    match goal with
    | |- context [truthy ?e] => destruct (truthy e)
    end; reflexivity.
Qed.

(** After the six assignments, a key holds what its own assignment gave. *)
Lemma get_assigned (k : MetricKey.t) (responseTime : LoadTestMetric.t)
  (check : LoadTestCheck.t Matcher) :
  LoadTestChecksResult.get k (assigned checkResult responseTime check) =
  evaluated checkResult k responseTime check.
Proof.
  unfold assigned. cbn [fold_left MetricKey.all].
  destruct k;
  destruct (evaluated checkResult MetricKey.avg responseTime check),
           (evaluated checkResult MetricKey.min responseTime check),
           (evaluated checkResult MetricKey.max responseTime check),
           (evaluated checkResult MetricKey.med responseTime check),
           (evaluated checkResult MetricKey.p95 responseTime check),
           (evaluated checkResult MetricKey.p99 responseTime check);
    reflexivity.
Qed.

(** *** The report *)

(** What the [steps] tally of a report holds: [passed] is the number of all
    steps, [total] the number of passed steps. *)
Lemma steps_tally_as_built (workflow : Workflow.t Matcher)
  (options : option WorkflowOptions.t) (st st' : St)
  (r : LoadTestResult.t Matcher CheckResult) :
  loadTest' workflow options st = (ok r, st') ->
  exists phases,
    Workflow.phases workflow = Some phases /\
    Tally.passed (Stats.steps (Report.stats (LoadTestResult.result r))) =
      length (all_steps (harvested' workflow options phases)) /\
    Tally.total (Stats.steps (Report.stats (LoadTestResult.result r))) =
      steps_passed (harvested' workflow options phases).
Proof.
  intros H.
  destruct (loadTest_returned _ _ _ H)
    as (phases & results & m & check & Hp & _ & Hh & _ & -> & _).
  exists phases. split; [assumption|].
  rewrite Hh. unfold steps_passed.
  cbn [report_of LoadTestResult.result Report.stats Stats.steps
       Tally.passed Tally.total].
  unfold step_flags. rewrite flat2_steps, length_map, filter_map_length.
  split; reflexivity.
Qed.

(** Without a check block no call returns a report. *)
Lemma loadTest_without_check (workflow : Workflow.t Matcher)
  (options : option WorkflowOptions.t) (st : St) :
  Workflow.check workflow = None ->
  exists e, fst (loadTest' workflow options st) = failed e.
Proof.
  intros Hc. rewrite loadTest_run, Hc.
  destruct (Workflow.phases workflow) as [phases|]; [|now eexists].
  cbv zeta.
  destruct (values_of (harvested' workflow options phases)); [now eexists|].
  destruct (metricsResult (response_times l)); now eexists.
Qed.

(** With a rejected iteration no call returns a report. *)
Lemma loadTest_with_rejected (workflow : Workflow.t Matcher)
  (options : option WorkflowOptions.t) (st : St) (phases : list Phase.t) :
  Workflow.phases workflow = Some phases ->
  has_rejected (harvested' workflow options phases) = true ->
  fst (loadTest' workflow options st) =
  failed (TypeError "Cannot read properties of undefined (reading 'result')").
Proof.
  intros Hp Hr. rewrite loadTest_run, Hp. cbv zeta.
  now rewrite (values_of_rejected _ Hr).
Qed.

(** C4, amended.  For every workflow whose configuration has no [phases]
    value (the [config], the [loadTest] block or the [phases] key is absent),
    [loadTest] fails with [MissingLoadTestConfig] and leaves the state as it
    found it: the clock was not read, the scheduler and the iteration callback
    were not called, nothing was emitted, and there is no report. *)
Theorem missing_phases_fails_first (workflow : Workflow.t Matcher)
  (options : option WorkflowOptions.t) (st : St) :
  Workflow.phases workflow = None ->
  loadTest' workflow options st = (failed MissingLoadTestConfig, st) /\
  scheduler_calls (trace (snd (loadTest' workflow options st))) =
    scheduler_calls (trace st) /\
  iterations_run (trace (snd (loadTest' workflow options st))) =
    iterations_run (trace st).
Proof.
  intros Hp. rewrite loadTest_run, Hp. repeat split.
Qed.

(** C5, amended.  For every run that returns a report there is a check
    block, and for each metric key the check evaluator is called exactly once
    if the key's entry in the check block is truthy (a matcher list, or a
    number other than 0) and not at all otherwise; [checks] holds the
    evaluator's result for [responseTime.k] against [check.k] under the
    truthy keys and no entry under the others. *)
Theorem checks_follow_truthy_thresholds (workflow : Workflow.t Matcher)
  (options : option WorkflowOptions.t) (st st' : St)
  (r : LoadTestResult.t Matcher CheckResult) :
  loadTest' workflow options st = (ok r, st') ->
  exists check checks,
    Workflow.check workflow = Some check /\
    Report.checks (LoadTestResult.result r) = Some checks /\
    forall k : MetricKey.t,
      check_calls k (trace st') =
        (check_calls k (trace st) +
         (if truthy (LoadTestCheck.get k check) then 1 else 0))%nat /\
      (truthy (LoadTestCheck.get k check) = true ->
       exists expected,
         LoadTestCheck.get k check = Some expected /\
         LoadTestChecksResult.get k checks =
           Some (checkResult
                   (metric k (Report.responseTime (LoadTestResult.result r)))
                   expected)) /\
      (truthy (LoadTestCheck.get k check) = false ->
       LoadTestChecksResult.get k checks = None).
Proof.
  intros H.
  destruct (loadTest_returned _ _ _ H)
    as (phases & results & m & check & _ & Hc & _ & _ & Hr & Ht).
  exists check, (assigned checkResult m check).
  split; [assumption|]. split; [now rewrite Hr|].
  intros k. rewrite Ht. split; [|split].
  - rewrite !check_calls_app. cbn [app].
    change (check_calls k (RunPhases phases :: map Run (seq 0 (arrivals phases))))
      with (check_calls k (map (@Run Matcher CheckResult) (seq 0 (arrivals phases)))).
    rewrite check_calls_runs, check_calls_evaluation, check_calls_emit.
    change (check_calls k [ClockRead (clock (reads st))]) with 0%nat.
    change (check_calls k [ClockRead (clock (S (reads st)));
                           ClockRead (clock (S (S (reads st))))]) with 0%nat.
    lia.
  - intros Htruthy. rewrite get_assigned, Hr. unfold evaluated.
    destruct (LoadTestCheck.get k check) as [expected|]; [|discriminate].
    rewrite Htruthy. now exists expected.
  - intros Hfalsy. rewrite get_assigned. unfold evaluated.
    destruct (LoadTestCheck.get k check) as [expected|]; [|reflexivity].
    now rewrite Hfalsy.
Qed.

(** C8.  For every run that returns a report, [stats.tests.passed] is the
    number of harvested iterations whose top-level [passed] flag is true,
    [stats.tests.total] is the number of harvested iterations, and
    total >= passed >= 0. *)
Theorem tests_tally (workflow : Workflow.t Matcher)
  (options : option WorkflowOptions.t) (st st' : St)
  (r : LoadTestResult.t Matcher CheckResult) :
  loadTest' workflow options st = (ok r, st') ->
  exists phases,
    Workflow.phases workflow = Some phases /\
    let tests := Stats.tests (Report.stats (LoadTestResult.result r)) in
    Tally.passed tests = iterations_passed (harvested' workflow options phases) /\
    Tally.total tests = length (harvested' workflow options phases) /\
    (0 <= Tally.passed tests)%nat /\
    (Tally.passed tests <= Tally.total tests)%nat.
Proof.
  intros H.
  destruct (loadTest_returned _ _ _ H)
    as (phases & results & m & check & Hp & _ & Hh & _ & -> & _).
  exists phases. split; [assumption|].
  rewrite Hh, iterations_passed_fulfilled, length_map.
  cbn [report_of LoadTestResult.result Report.stats Stats.tests
       Tally.passed Tally.total].
  repeat split; [lia|apply filter_length_le].
Qed.

(** C10.  For every run that returns a report, [iterations] equals
    [stats.tests.total], both being the number of harvested iteration
    outcomes, and the samples summarised in [responseTime] are as many as the
    flattened steps of all iterations. *)
Theorem iterations_and_samples_counts (workflow : Workflow.t Matcher)
  (options : option WorkflowOptions.t) (st st' : St)
  (r : LoadTestResult.t Matcher CheckResult) :
  loadTest' workflow options st = (ok r, st') ->
  exists phases samples,
    Workflow.phases workflow = Some phases /\
    Report.iterations (LoadTestResult.result r) =
      Tally.total (Stats.tests (Report.stats (LoadTestResult.result r))) /\
    Report.iterations (LoadTestResult.result r) =
      length (harvested' workflow options phases) /\
    metricsResult samples = ok (Report.responseTime (LoadTestResult.result r)) /\
    samples = latency_samples (harvested' workflow options phases) /\
    length samples = length (all_steps (harvested' workflow options phases)).
Proof.
  intros H.
  destruct (loadTest_returned _ _ _ H)
    as (phases & results & m & check & Hp & _ & Hh & Hm & -> & _).
  exists phases, (response_times results).
  rewrite Hh, length_map. unfold latency_samples.
  cbn [report_of LoadTestResult.result Report.stats Stats.tests Tally.total
       Report.iterations Report.responseTime].
  unfold response_times in *. rewrite flat2_steps in *. rewrite length_map.
  repeat split; assumption.
Qed.

End OrchestratorFacts.

(** C7.  On the empty sequence of samples [metricsResult] fails with
    [EmptySampleSet]; it returns no summary. *)
Theorem metricsResult_empty :
  metricsResult [] = failed EmptySampleSet /\
  forall m : LoadTestMetric.t, metricsResult [] <> ok m.
Proof.
  split; [reflexivity|]. intros m H. discriminate H.
Qed.

Lemma metricsResult_ordered_witness :
  [30; 10; 20] <> [] /\
  exists m : LoadTestMetric.t,
    metricsResult [30; 10; 20] = ok m /\
    LoadTestMetric.min m <= LoadTestMetric.med m /\
    LoadTestMetric.med m <= LoadTestMetric.p95 m /\
    LoadTestMetric.p95 m <= LoadTestMetric.p99 m /\
    LoadTestMetric.p99 m <= LoadTestMetric.max m /\
    LoadTestMetric.min m <= LoadTestMetric.avg m /\
    LoadTestMetric.avg m <= LoadTestMetric.max m.
Proof.
  split; [discriminate|].
  apply (@metricsResult_ordered [30; 10; 20]). discriminate.
Defined.

(** ** The sample world *)

(** C1.  A run with a failed step: four steps were run and three of them
    passed, and the report says [stats.steps.total = 3] and
    [stats.steps.passed = 4], so that total < passed. *)
Theorem steps_total_below_passed :
  exists r st',
    Sample.loadTest_mixed Sample.with_empty_check None Sample.initial = (ok r, st') /\
    length (all_steps (harvested Sample.arrivals Sample.run_mixed
                                 Sample.with_empty_check None Sample.schedule)) = 4%nat /\
    steps_passed (harvested Sample.arrivals Sample.run_mixed
                            Sample.with_empty_check None Sample.schedule) = 3%nat /\
    Tally.total (Stats.steps (Report.stats (LoadTestResult.result r))) = 3%nat /\
    Tally.passed (Stats.steps (Report.stats (LoadTestResult.result r))) = 4%nat /\
    ~ (Tally.total (Stats.steps (Report.stats (LoadTestResult.result r))) >=
       Tally.passed (Stats.steps (Report.stats (LoadTestResult.result r))))%nat.
Proof.
  eexists. eexists. split; [vm_compute; reflexivity|].
  repeat split; try reflexivity. cbn. lia.
Qed.

(** C2.  A run of a workflow with phases and no check block: every iteration
    fulfils, the summary is computed, and [loadTest] throws at
    [Object.entries(undefined)]; there is no report. *)
Theorem missing_check_block_throws :
  Workflow.phases Sample.without_check = Some Sample.schedule /\
  Workflow.check Sample.without_check = None /\
  fst (Sample.loadTest_mixed Sample.without_check None Sample.initial) =
    failed (TypeError "Cannot convert undefined or null to object").
Proof.
  repeat split.
Qed.

(** C3.  A run whose second iteration settles as rejected: [loadTest] throws
    at [result.value.result]; there is no report. *)
Theorem rejected_iteration_throws :
  has_rejected (harvested Sample.arrivals Sample.run_rejecting
                          Sample.with_checks None Sample.schedule) = true /\
  fst (Sample.loadTest_rejecting Sample.with_checks None Sample.initial) =
    failed (TypeError "Cannot read properties of undefined (reading 'result')").
Proof.
  split; reflexivity.
Qed.

Lemma missing_phases_fails_first_witness :
  Workflow.phases Sample.without_config = None /\
  Sample.loadTest_mixed Sample.without_config None Sample.initial =
    (failed MissingLoadTestConfig, Sample.initial) /\
  scheduler_calls
    (trace (snd (Sample.loadTest_mixed Sample.without_config None Sample.initial))) =
    scheduler_calls (trace Sample.initial) /\
  iterations_run
    (trace (snd (Sample.loadTest_mixed Sample.without_config None Sample.initial))) =
    iterations_run (trace Sample.initial).
Proof.
  split; [reflexivity|].
  apply (missing_phases_fails_first Sample.passed Sample.checkResult Sample.clock
           Sample.arrivals Sample.run_mixed Sample.without_config None
           Sample.initial).
  reflexivity.
Defined.

(** C5 as worded fails on a numeric threshold 0: the check block of
    [Sample.with_checks] has the key [p95], the evaluator is not called for
    it and [checks] has no entry under it. *)
Lemma zero_threshold_not_evaluated :
  exists r st' check checks,
    Sample.loadTest_mixed Sample.with_checks None Sample.initial = (ok r, st') /\
    Workflow.check Sample.with_checks = Some check /\
    Report.checks (LoadTestResult.result r) = Some checks /\
    ~ checks_follow_presence check checks (trace Sample.initial) (trace st').
Proof.
  do 4 eexists.
  split; [vm_compute; reflexivity|].
  split; [reflexivity|]. split; [reflexivity|].
  intros Hall. destruct (Hall MetricKey.p95) as [Hcalls _].
  vm_compute in Hcalls. discriminate Hcalls.
Qed.

Lemma checks_follow_truthy_thresholds_witness :
  exists r st',
    Sample.loadTest_mixed Sample.with_checks None Sample.initial = (ok r, st') /\
    exists check checks,
      Workflow.check Sample.with_checks = Some check /\
      Report.checks (LoadTestResult.result r) = Some checks /\
      forall k : MetricKey.t,
        check_calls k (trace st') =
          (check_calls k (trace Sample.initial) +
           (if truthy (LoadTestCheck.get k check) then 1 else 0))%nat /\
        (truthy (LoadTestCheck.get k check) = true ->
         exists expected,
           LoadTestCheck.get k check = Some expected /\
           LoadTestChecksResult.get k checks =
             Some (Sample.checkResult
                     (metric k (Report.responseTime (LoadTestResult.result r)))
                     expected)) /\
        (truthy (LoadTestCheck.get k check) = false ->
         LoadTestChecksResult.get k checks = None).
Proof.
  do 2 eexists.
  assert (H : Sample.loadTest_mixed Sample.with_checks None Sample.initial =
              (ok _, _)) by (vm_compute; reflexivity).
  split; [exact H|].
  exact (@checks_follow_truthy_thresholds _ _ Sample.passed Sample.checkResult
           Sample.clock Sample.arrivals Sample.run_mixed _ _ _ _ _ H).
Defined.

Lemma tests_tally_witness :
  exists r st',
    Sample.loadTest_mixed Sample.with_checks None Sample.initial = (ok r, st') /\
    exists phases,
      Workflow.phases Sample.with_checks = Some phases /\
      let tests := Stats.tests (Report.stats (LoadTestResult.result r)) in
      Tally.passed tests =
        iterations_passed (harvested Sample.arrivals Sample.run_mixed
                                     Sample.with_checks None phases) /\
      Tally.total tests =
        length (harvested Sample.arrivals Sample.run_mixed
                          Sample.with_checks None phases) /\
      (0 <= Tally.passed tests)%nat /\
      (Tally.passed tests <= Tally.total tests)%nat.
Proof.
  do 2 eexists.
  assert (H : Sample.loadTest_mixed Sample.with_checks None Sample.initial =
              (ok _, _)) by (vm_compute; reflexivity).
  split; [exact H|].
  exact (@tests_tally _ _ Sample.passed Sample.checkResult
           Sample.clock Sample.arrivals Sample.run_mixed _ _ _ _ _ H).
Defined.

Lemma iterations_and_samples_counts_witness :
  exists r st',
    Sample.loadTest_mixed Sample.with_checks None Sample.initial = (ok r, st') /\
    exists phases samples,
      Workflow.phases Sample.with_checks = Some phases /\
      Report.iterations (LoadTestResult.result r) =
        Tally.total (Stats.tests (Report.stats (LoadTestResult.result r))) /\
      Report.iterations (LoadTestResult.result r) =
        length (harvested Sample.arrivals Sample.run_mixed
                          Sample.with_checks None phases) /\
      metricsResult samples = ok (Report.responseTime (LoadTestResult.result r)) /\
      samples = latency_samples (harvested Sample.arrivals Sample.run_mixed
                                           Sample.with_checks None phases) /\
      length samples =
        length (all_steps (harvested Sample.arrivals Sample.run_mixed
                                     Sample.with_checks None phases)).
Proof.
  do 2 eexists.
  assert (H : Sample.loadTest_mixed Sample.with_checks None Sample.initial =
              (ok _, _)) by (vm_compute; reflexivity).
  split; [exact H|].
  exact (@iterations_and_samples_counts _ _ Sample.passed Sample.checkResult
           Sample.clock Sample.arrivals Sample.run_mixed _ _ _ _ _ H).
Defined.

(** * Further properties *)

(** ** The summary of a sample *)

Module SummaryFacts.
Import SimpleStatistics.

Lemma fold_Qmin_glb (l : list Q) (a lo : Q) :
  lo <= a -> (forall y, In y l -> lo <= y) -> lo <= fold_left Qmin l a.
Proof.
  revert a. induction l as [|w l IH]; intros a Ha Hl; simpl; [assumption|].
  apply IH.
  - apply Q.min_glb; [assumption|apply Hl; now left].
  - intros y Hy. apply Hl. now right.
Qed.

Lemma fold_Qmax_lub (l : list Q) (a hi : Q) :
  a <= hi -> (forall y, In y l -> y <= hi) -> fold_left Qmax l a <= hi.
Proof.
  revert a. induction l as [|w l IH]; intros a Ha Hl; simpl; [assumption|].
  apply IH.
  - apply Q.max_lub; [assumption|apply Hl; now left].
  - intros y Hy. apply Hl. now right.
Qed.

Lemma min_glb (x : list Q) (m lo : Q) :
  min x = ok m -> (forall y, In y x -> lo <= y) -> lo <= m.
Proof.
  destruct x as [|v x]; simpl; [discriminate|].
  intros [= <-] Hl.
  apply fold_Qmin_glb; [apply Hl; now left|].
  intros y Hy. apply Hl. now right.
Qed.

Lemma max_lub (x : list Q) (m hi : Q) :
  max x = ok m -> (forall y, In y x -> y <= hi) -> m <= hi.
Proof.
  destruct x as [|v x]; simpl; [discriminate|].
  intros [= <-] Hl.
  apply fold_Qmax_lub; [apply Hl; now left|].
  intros y Hy. apply Hl. now right.
Qed.

(** The fields of a summary are the six statistics of the sample. *)
Lemma metricsResult_fields (numbers : list Q) (m : LoadTestMetric.t) :
  metricsResult numbers = ok m ->
  mean numbers = ok (LoadTestMetric.avg m) /\
  min numbers = ok (LoadTestMetric.min m) /\
  max numbers = ok (LoadTestMetric.max m) /\
  median numbers = ok (LoadTestMetric.med m) /\
  quantile numbers (95 # 100) = ok (LoadTestMetric.p95 m) /\
  quantile numbers (99 # 100) = ok (LoadTestMetric.p99 m).
Proof.
  destruct numbers as [|v x]; [discriminate|].
  intros H. injection H as <-. repeat split.
Qed.

Lemma metricsResult_nonempty (numbers : list Q) :
  numbers <> [] -> exists m, metricsResult numbers = ok m.
Proof.
  destruct numbers as [|v x]; [congruence|]. intros _. eexists. reflexivity.
Qed.

Lemma metricsResult_ok_nonempty (numbers : list Q) (m : LoadTestMetric.t) :
  metricsResult numbers = ok m -> numbers <> [].
Proof.
  destruct numbers; [discriminate|]. intros _. discriminate.
Qed.

Lemma quantile_mono (x : list Q) (p q a b : Q) :
  0 <= p -> p <= q -> q <= 1 ->
  quantile x p = ok a -> quantile x q = ok b -> a <= b.
Proof.
  intros Hp Hpq Hq Ha Hb.
  destruct x as [|w x]; [discriminate|].
  set (l := w :: x) in *.
  assert (Hne : sort l <> []).
  { intro E. apply (f_equal (@length Q)) in E.
    rewrite StatisticsFacts.sort_length in E. discriminate. }
  pose proof (StatisticsFacts.quantileSorted_mono
                (StatisticsFacts.sort_ascending l) Hne Hp Hpq Hq) as Hmono.
  assert (Ea : ok (quantileSorted (sort l) p) = ok a) by exact Ha.
  assert (Eb : ok (quantileSorted (sort l) q) = ok b) by exact Hb.
  unfold ok in Ea, Eb.
  replace a with (quantileSorted (sort l) p) by congruence.
  replace b with (quantileSorted (sort l) q) by congruence.
  exact Hmono.
Qed.

(** The order among the fields of a summary, however it was obtained. *)
Lemma summary_ordered (numbers : list Q) (m : LoadTestMetric.t) :
  metricsResult numbers = ok m ->
  LoadTestMetric.min m <= LoadTestMetric.med m /\
  LoadTestMetric.med m <= LoadTestMetric.p95 m /\
  LoadTestMetric.p95 m <= LoadTestMetric.p99 m /\
  LoadTestMetric.p99 m <= LoadTestMetric.max m /\
  LoadTestMetric.min m <= LoadTestMetric.avg m /\
  LoadTestMetric.avg m <= LoadTestMetric.max m.
Proof.
  intros H.
  destruct (metricsResult_fields _ H) as (Havg & Hmin & Hmax & Hmed & H95 & H99).
  unfold median in Hmed.
  assert (Hmean : LoadTestMetric.min m <= LoadTestMetric.avg m /\
                  LoadTestMetric.avg m <= LoadTestMetric.max m).
  { apply (@StatisticsFacts.mean_between numbers); [| |assumption].
    - intros y Hy. eapply StatisticsFacts.min_lower; eassumption.
    - intros y Hy. eapply StatisticsFacts.max_upper; eassumption. }
  repeat split; try apply Hmean.
  - apply (@StatisticsFacts.quantile_between numbers (1 # 2) _
             (LoadTestMetric.max m)); [lra|lra|assumption..].
  - apply (@quantile_mono numbers (1 # 2) (95 # 100)); [lra|lra|lra|assumption..].
  - apply (@quantile_mono numbers (95 # 100) (99 # 100)); [lra|lra|lra|assumption..].
  - apply (@StatisticsFacts.quantile_between numbers (99 # 100)
             (LoadTestMetric.min m)); [lra|lra|assumption..].
Qed.

(** Bounds of the sample are bounds of the summary. *)
Lemma summary_within (numbers : list Q) (lo hi : Q) (m : LoadTestMetric.t) :
  (forall y, In y numbers -> lo <= y /\ y <= hi) ->
  metricsResult numbers = ok m ->
  forall k : MetricKey.t, lo <= metric k m /\ metric k m <= hi.
Proof.
  intros Hin H.
  destruct (summary_ordered _ H) as (H1 & H2 & H3 & H4 & H5 & H6).
  destruct (metricsResult_fields _ H) as (_ & Hmin & Hmax & _).
  assert (Hlo : lo <= LoadTestMetric.min m).
  { apply (min_glb _ Hmin). intros y Hy. now apply Hin. }
  assert (Hhi : LoadTestMetric.max m <= hi).
  { apply (max_lub _ Hmax). intros y Hy. now apply Hin. }
  intros k. destruct k; cbn [metric]; split; lra.
Qed.

End SummaryFacts.

(** X1.  Whenever every sample lies between two bounds, so does every
    field of the summary [metricsResult] returns: avg, min, max, med, p95 and
    p99. *)
Theorem metricsResult_within (numbers : list Q) (lo hi : Q)
  (m : LoadTestMetric.t) :
  (forall y, In y numbers -> lo <= y /\ y <= hi) ->
  metricsResult numbers = ok m ->
  forall k : MetricKey.t, lo <= metric k m /\ metric k m <= hi.
Proof.
  exact (@SummaryFacts.summary_within numbers lo hi m).
Qed.

Lemma metricsResult_within_witness :
  (forall y, In y [30; 10; 20] -> 10 <= y /\ y <= 30) /\
  exists m,
    metricsResult [30; 10; 20] = ok m /\
    forall k : MetricKey.t, 10 <= metric k m /\ metric k m <= 30.
Proof.
  assert (Hin : forall y, In y [30; 10; 20] -> 10 <= y /\ y <= 30).
  { simpl. intros y [<-|[<-|[<-|[]]]]; split; discriminate. }
  split; [exact Hin|]. eexists. split; [reflexivity|].
  apply (@metricsResult_within [30; 10; 20] 10 30 _ Hin). reflexivity.
Defined.

(** X2.  When every sample has the same value, every field of the summary
    has that value: avg = min = max = med = p95 = p99. *)
Theorem metricsResult_constant (numbers : list Q) (x : Q) (m : LoadTestMetric.t) :
  (forall y, In y numbers -> y == x) ->
  metricsResult numbers = ok m ->
  forall k : MetricKey.t, metric k m == x.
Proof.
  intros Hin H k.
  assert (Hb : forall y, In y numbers -> x <= y /\ y <= x).
  { intros y Hy. rewrite (Hin y Hy). split; apply Qle_refl. }
  destruct (SummaryFacts.summary_within _ Hb H k) as [Hlo Hhi].
  now apply Qle_antisym.
Qed.

Lemma metricsResult_constant_witness :
  (forall y, In y [50; 100 # 2; 50] -> y == 50) /\
  exists m,
    metricsResult [50; 100 # 2; 50] = ok m /\
    forall k : MetricKey.t, metric k m == 50.
Proof.
  assert (Hin : forall y, In y [50; 100 # 2; 50] -> y == 50).
  { simpl. intros y [<-|[<-|[<-|[]]]]; reflexivity. }
  split; [exact Hin|]. eexists. split; [reflexivity|].
  apply (@metricsResult_constant [50; 100 # 2; 50] 50 _ Hin). reflexivity.
Defined.

(** ** More on the orchestrator *)

Section OrchestratorMore.

Variables Matcher CheckResult : Type.
Variable passed_of : CheckResult -> bool.
Variable checkResult : Q -> Threshold Matcher -> CheckResult.
Variable clock : nat -> Z.
Variable arrivals : list Phase.t -> nat.
Variable run : Workflow.t Matcher -> option WorkflowOptions.t -> nat ->
               PromiseSettledResult WorkflowResult.t.

Local Abbreviation loadTest' := (loadTest passed_of checkResult clock arrivals run).
Local Abbreviation harvested' := (harvested arrivals run).
Local Abbreviation St := (State Matcher CheckResult).
Local Abbreviation Ev := (Event Matcher CheckResult).

(** *** Counting in a trace *)

Lemma scheduler_calls_app (a b : list Ev) :
  scheduler_calls (a ++ b) = (scheduler_calls a + scheduler_calls b)%nat.
Proof.
  unfold scheduler_calls. now rewrite filter_app, length_app.
Qed.

Lemma iterations_run_app (a b : list Ev) :
  iterations_run (a ++ b) = (iterations_run a + iterations_run b)%nat.
Proof.
  unfold iterations_run. now rewrite filter_app, length_app.
Qed.

Lemma emitted_app (a b : list Ev) : emitted (a ++ b) = emitted a ++ emitted b.
Proof.
  unfold emitted. apply flat_map_app.
Qed.

Lemma runs_counted (calls : list nat) :
  scheduler_calls (map (@Run Matcher CheckResult) calls) = 0%nat /\
  iterations_run (map (@Run Matcher CheckResult) calls) = length calls /\
  emitted (map (@Run Matcher CheckResult) calls) = [].
Proof.
  induction calls as [|i calls (IH1 & IH2 & IH3)]; [now repeat split|].
  repeat split; [exact IH1|cbn; f_equal; exact IH2|exact IH3].
Qed.

Lemma evaluation_events_counted (k : MetricKey.t) (m : LoadTestMetric.t)
  (check : LoadTestCheck.t Matcher) :
  scheduler_calls (@evaluation_events Matcher CheckResult k m check) = 0%nat /\
  iterations_run (@evaluation_events Matcher CheckResult k m check) = 0%nat /\
  emitted (@evaluation_events Matcher CheckResult k m check) = [].
Proof.
  unfold evaluation_events.
  destruct (LoadTestCheck.get k check) as [expected|]; [|now repeat split].
  destruct (truthy (Some expected)); now repeat split.
Qed.

Lemma evaluation_trace_counted (m : LoadTestMetric.t)
  (check : LoadTestCheck.t Matcher) :
  scheduler_calls (@evaluation_trace Matcher CheckResult m check) = 0%nat /\
  iterations_run (@evaluation_trace Matcher CheckResult m check) = 0%nat /\
  emitted (@evaluation_trace Matcher CheckResult m check) = [].
Proof.
  unfold evaluation_trace. cbn [flat_map MetricKey.all].
  rewrite !scheduler_calls_app, !iterations_run_app, !emitted_app.
  destruct (evaluation_events_counted MetricKey.avg m check) as (-> & -> & ->).
  destruct (evaluation_events_counted MetricKey.min m check) as (-> & -> & ->).
  destruct (evaluation_events_counted MetricKey.max m check) as (-> & -> & ->).
  destruct (evaluation_events_counted MetricKey.med m check) as (-> & -> & ->).
  destruct (evaluation_events_counted MetricKey.p95 m check) as (-> & -> & ->).
  destruct (evaluation_events_counted MetricKey.p99 m check) as (-> & -> & ->).
  now repeat split.
Qed.

Lemma emit_events_counted (options : option WorkflowOptions.t)
  (r : LoadTestResult.t Matcher CheckResult) :
  scheduler_calls (emit_events options r) = 0%nat /\
  iterations_run (emit_events options r) = 0%nat /\
  emitted (emit_events options r) =
    if has_emitter options then [("loadtest:result"%string, r)] else [].
Proof.
  unfold emit_events, has_emitter.
  destruct options as [o|]; [|now repeat split].
  destruct (WorkflowOptions.ee o); now repeat split.
Qed.

(** The trace of a call on a workflow with phases starts with the reading
    of the clock and the scheduling, whatever comes after. *)
Lemma loadTest_scheduled (workflow : Workflow.t Matcher)
  (options : option WorkflowOptions.t) (st : St) (phases : list Phase.t) :
  Workflow.phases workflow = Some phases ->
  exists rest : list Ev,
    trace (snd (loadTest' workflow options st)) =
      trace st ++ [ClockRead (clock (reads st))] ++
      (RunPhases phases :: map Run (seq 0 (arrivals phases))) ++ rest /\
    scheduler_calls rest = 0%nat /\ iterations_run rest = 0%nat.
Proof.
  intros Hp. rewrite loadTest_run, Hp. cbv zeta.
  destruct (values_of (harvested' workflow options phases)) as [e|results].
  { exists []. cbn [snd trace]. now rewrite !app_nil_r. }
  destruct (metricsResult (response_times results)) as [e|m].
  { exists []. cbn [snd trace]. now rewrite !app_nil_r. }
  destruct (Workflow.check workflow) as [check|].
  - eexists. cbn [snd trace]. rewrite <- !app_assoc. split; [reflexivity|].
    rewrite !scheduler_calls_app, !iterations_run_app.
    destruct (evaluation_trace_counted m check) as (-> & -> & _).
    match goal with
    | |- context [emit_events ?o ?r] =>
        destruct (emit_events_counted o r) as (-> & -> & _)
    end.
    now split.
  - eexists. cbn [snd trace]. rewrite <- !app_assoc. split; [reflexivity|].
    now split.
Qed.

(** The state a call that returns a report leaves. *)
Lemma loadTest_returned_reads (workflow : Workflow.t Matcher)
  (options : option WorkflowOptions.t) (st st' : St)
  (r : LoadTestResult.t Matcher CheckResult) :
  loadTest' workflow options st = (ok r, st') ->
  reads st' = S (S (S (reads st))).
Proof.
  rewrite loadTest_run.
  destruct (Workflow.phases workflow) as [phases|]; [|discriminate].
  cbv zeta.
  destruct (values_of (harvested' workflow options phases)); [discriminate|].
  destruct (metricsResult (response_times l)); [discriminate|].
  destruct (Workflow.check workflow); [|discriminate].
  intros H. injection H as _ <-. reflexivity.
Qed.

(** *** Harvesting, again *)

Lemma has_rejected_fulfilled (results : list RunResult.t) :
  has_rejected (map (fun r => fulfilled (WorkflowResult.make r)) results) = false.
Proof.
  induction results as [|r results IH]; [reflexivity|exact IH].
Qed.

Lemma values_of_no_rejected
  (resultList : list (PromiseSettledResult WorkflowResult.t)) :
  has_rejected resultList = false ->
  exists results, values_of resultList = ok results.
Proof.
  induction resultList as [|[v|reason] rest IH]; simpl; intros H.
  - now eexists.
  - destruct (IH H) as (results & ->). now eexists.
  - discriminate.
Qed.

Lemma response_times_samples
  (resultList : list (PromiseSettledResult WorkflowResult.t))
  (results : list RunResult.t) :
  values_of resultList = ok results ->
  response_times results = latency_samples resultList.
Proof.
  intros H. rewrite (values_of_fulfilled _ H).
  unfold response_times, latency_samples. apply flat2_steps.
Qed.

(** *** The verdict *)

Lemma every_entry (checks : LoadTestChecksResult.t CheckResult) :
  forallb (fun passed : bool => passed)
          (map (fun kv => passed_of (snd kv)) (LoadTestChecksResult.entries checks)) =
  forallb (fun k => match LoadTestChecksResult.get k checks with
                    | Some v => passed_of v
                    | None => true
                    end) MetricKey.all.
Proof.
  destruct checks as [[a|] [b|] [c|] [d|] [e|] [f|]]; cbn;
    rewrite ?andb_true_r; reflexivity.
Qed.

Lemma every_key (P : MetricKey.t -> bool) :
  forallb P MetricKey.all = true <-> forall k, P k = true.
Proof.
  rewrite forallb_forall. split; intros H k; [|intros _; apply H].
  apply H. destruct k; simpl; tauto.
Qed.

Lemma evaluated_falsy (k : MetricKey.t) (m : LoadTestMetric.t)
  (check : LoadTestCheck.t Matcher) :
  truthy (LoadTestCheck.get k check) = false ->
  evaluated checkResult k m check = None.
Proof.
  unfold evaluated. destruct (LoadTestCheck.get k check); [|reflexivity].
  now intros ->.
Qed.

(** *** Division *)

Lemma js_div_of_positive (a b : Q) :
  0 < a ->
  js_div a b = if Qeq_bool b 0 then PosInfinity else Finite (a / b).
Proof.
  intros Ha. unfold js_div.
  destruct (Qeq_bool b 0); [|reflexivity].
  destruct (Qeq_bool a 0) eqn:E.
  - apply Qeq_bool_iff in E. lra.
  - assert (Hle : Qle_bool 0 a = true) by (apply Qle_bool_iff; lra).
    now rewrite Hle.
Qed.

Lemma elapsed_seconds_zero (start now : Z) :
  Qeq_bool (elapsed_seconds start now) 0 = (now =? start)%Z.
Proof.
  unfold elapsed_seconds.
  destruct (Z.eqb_spec now start) as [->|Hne].
  - rewrite Z.sub_diag. reflexivity.
  - destruct (Qeq_bool (inject_Z (now - start) / 1000) 0) eqn:E; [|reflexivity].
    apply Qeq_bool_iff in E. exfalso. apply Hne.
    assert (H0 : inject_Z (now - start) == 0).
    { setoid_replace (inject_Z (now - start))
        with (inject_Z (now - start) / 1000 * 1000) by (field; discriminate).
      rewrite E. reflexivity. }
    unfold Qeq in H0. simpl in H0. lia.
Qed.

(** C9.  For every run that returns a report, [rps] is the number of latency
    samples collected divided by the seconds between the reading of the clock
    at the start and its next reading: at least one sample was collected, so
    when the two readings differ [rps] is the finite quotient [q] of the two
    ([q] times the seconds gives back the number of samples), and when they
    are equal the division by zero seconds gives [Infinity]. *)
Theorem rps_is_samples_per_second (workflow : Workflow.t Matcher)
  (options : option WorkflowOptions.t) (st st' : St)
  (r : LoadTestResult.t Matcher CheckResult) :
  loadTest' workflow options st = (ok r, st') ->
  exists phases,
    Workflow.phases workflow = Some phases /\
    let count :=
      inject_Z (Z.of_nat (length (latency_samples
                                    (harvested' workflow options phases)))) in
    let seconds :=
      inject_Z (clock (S (reads st)) - clock (reads st)) / 1000 in
    0 < count /\
    (clock (S (reads st)) <> clock (reads st) ->
     exists q : Q,
       Report.rps (LoadTestResult.result r) = Finite q /\
       q == count / seconds /\
       q * seconds == count) /\
    (clock (S (reads st)) = clock (reads st) ->
     Report.rps (LoadTestResult.result r) = PosInfinity).
Proof.
  intros H.
  destruct (loadTest_returned passed_of checkResult clock arrivals run _ _ _ H)
    as (phases & results & m & check & Hp & _ & Hh & Hm & -> & _).
  exists phases. split; [assumption|]. cbv zeta.
  rewrite Hh.
  rewrite <- (@response_times_samples _ _ (values_of_total results)).
  pose proof (@SummaryFacts.metricsResult_ok_nonempty _ _ Hm) as Hne.
  assert (Hn : 0 < inject_Z (Z.of_nat (length (response_times results)))).
  { change 0 with (inject_Z 0). rewrite <- Zlt_Qlt.
    destruct (response_times results); [congruence|simpl; lia]. }
  cbn [report_of LoadTestResult.result Report.rps].
  rewrite (js_div_of_positive _ Hn).
  pose proof (elapsed_seconds_zero (clock (reads st)) (clock (S (reads st))))
    as Hz.
  unfold elapsed_seconds in Hz. rewrite Hz.
  split; [assumption|]. split.
  - intros Hdiff.
    destruct (Z.eqb_spec (clock (S (reads st))) (clock (reads st)))
      as [Heq|_]; [contradiction|].
    eexists. split; [reflexivity|]. split; [reflexivity|].
    assert (Hs : ~ inject_Z (clock (S (reads st)) - clock (reads st)) / 1000 == 0).
    { apply Qeq_bool_neq. exact Hz. }
    rewrite Qmult_comm. apply Qmult_div_r. exact Hs.
  - intros Hsame. rewrite Hsame, Z.eqb_refl. reflexivity.
Qed.

Lemma scheduled_counts (workflow : Workflow.t Matcher)
  (options : option WorkflowOptions.t) (st : St) (phases : list Phase.t) :
  Workflow.phases workflow = Some phases ->
  scheduler_calls (trace (snd (loadTest' workflow options st))) =
    (scheduler_calls (trace st) + 1)%nat /\
  iterations_run (trace (snd (loadTest' workflow options st))) =
    (iterations_run (trace st) + arrivals phases)%nat /\
  In (RunPhases phases) (trace (snd (loadTest' workflow options st))).
Proof.
  intros Hp.
  destruct (loadTest_scheduled workflow options st Hp) as (rest & -> & Hs & Hi).
  rewrite !scheduler_calls_app, !iterations_run_app, Hs, Hi.
  change (scheduler_calls (RunPhases phases :: map Run (seq 0 (arrivals phases))))
    with (S (scheduler_calls (map (@Run Matcher CheckResult)
                                  (seq 0 (arrivals phases))))).
  change (iterations_run (RunPhases phases :: map Run (seq 0 (arrivals phases))))
    with (iterations_run (map (@Run Matcher CheckResult)
                              (seq 0 (arrivals phases)))).
  destruct (runs_counted (seq 0 (arrivals phases))) as (-> & -> & _).
  rewrite length_seq.
  split; [cbn; lia|]. split; [cbn; lia|].
  apply in_or_app. right. cbn. right. left. reflexivity.
Qed.

Lemma returned_emitted (workflow : Workflow.t Matcher)
  (options : option WorkflowOptions.t) (st st' : St)
  (r : LoadTestResult.t Matcher CheckResult) :
  loadTest' workflow options st = (ok r, st') ->
  emitted (trace st') =
    emitted (trace st) ++
    (if has_emitter options then [("loadtest:result"%string, r)] else []) /\
  LoadTestResult.workflow r = workflow.
Proof.
  intros H.
  destruct (loadTest_returned passed_of checkResult clock arrivals run _ _ _ H)
    as (phases & results & m & check & _ & _ & _ & _ & Hr & Ht).
  split; [|now rewrite Hr].
  rewrite Ht, !emitted_app. cbn [app].
  change (emitted (RunPhases phases :: map Run (seq 0 (arrivals phases))))
    with (emitted (map (@Run Matcher CheckResult) (seq 0 (arrivals phases)))).
  destruct (runs_counted (seq 0 (arrivals phases))) as (_ & _ & ->).
  destruct (evaluation_trace_counted m check) as (_ & _ & ->).
  destruct (emit_events_counted options r) as (_ & _ & ->).
  cbn. reflexivity.
Qed.

(** *** The run as a whole *)

(** X3.  For every run that returns a report, the overall [passed] flag is
    true exactly when the check evaluator passed every key of the check block
    with a truthy threshold, on that key's field of [responseTime].  Whether
    iterations or steps passed plays no part. *)
Theorem passed_iff_every_check_passed (workflow : Workflow.t Matcher)
  (options : option WorkflowOptions.t) (st st' : St)
  (r : LoadTestResult.t Matcher CheckResult) :
  loadTest' workflow options st = (ok r, st') ->
  exists check,
    Workflow.check workflow = Some check /\
    (Report.passed (LoadTestResult.result r) = true <->
     forall (k : MetricKey.t) (expected : Threshold Matcher),
       LoadTestCheck.get k check = Some expected ->
       truthy (Some expected) = true ->
       passed_of (checkResult
                    (metric k (Report.responseTime (LoadTestResult.result r)))
                    expected) = true).
Proof.
  intros H.
  destruct (loadTest_returned passed_of checkResult clock arrivals run _ _ _ H)
    as (phases & results & m & check & _ & Hc & _ & _ & -> & _).
  exists check. split; [assumption|].
  cbn [report_of LoadTestResult.result Report.passed Report.responseTime].
  rewrite every_entry, every_key.
  split.
  - intros Hall k expected Hk Ht. specialize (Hall k).
    rewrite get_assigned in Hall. unfold evaluated in Hall.
    now rewrite Hk, Ht in Hall.
  - intros Hall k. rewrite get_assigned. unfold evaluated.
    destruct (LoadTestCheck.get k check) as [expected|] eqn:Hk; [|reflexivity].
    destruct (truthy (Some expected)) eqn:Ht; [|reflexivity].
    now apply Hall.
Qed.

(** X4.  When no key of the check block has a truthy threshold (the block is
    [{}], or holds only zeros), a run that returns a report has [passed]
    true and an empty [checks] object, whatever the latencies. *)
Theorem falsy_check_block_passes (workflow : Workflow.t Matcher)
  (options : option WorkflowOptions.t) (st st' : St)
  (r : LoadTestResult.t Matcher CheckResult) (check : LoadTestCheck.t Matcher) :
  Workflow.check workflow = Some check ->
  (forall k, truthy (LoadTestCheck.get k check) = false) ->
  loadTest' workflow options st = (ok r, st') ->
  Report.passed (LoadTestResult.result r) = true /\
  Report.checks (LoadTestResult.result r) = Some LoadTestChecksResult.empty.
Proof.
  intros Hc Hfalsy H.
  destruct (loadTest_returned passed_of checkResult clock arrivals run _ _ _ H)
    as (phases & results & m & check' & _ & Hc' & _ & _ & -> & _).
  assert (check' = check) as -> by congruence.
  assert (Hempty : assigned checkResult m check = LoadTestChecksResult.empty).
  { unfold assigned. cbn [fold_left MetricKey.all].
    now rewrite !evaluated_falsy by apply Hfalsy. }
  cbn [report_of LoadTestResult.result Report.passed Report.checks].
  rewrite Hempty. split; reflexivity.
Qed.

(** X5.  A run that returns a report has read the clock three times, and
    [duration] is the milliseconds from the first reading to the third,
    whatever the clock shows.  When the clock does not run backwards,
    [duration] is at least the time window [rps] is computed over, which is
    then not negative. *)
Theorem duration_spans_rps_window (workflow : Workflow.t Matcher)
  (options : option WorkflowOptions.t) (st st' : St)
  (r : LoadTestResult.t Matcher CheckResult) :
  loadTest' workflow options st = (ok r, st') ->
  reads st' = (reads st + 3)%nat /\
  Report.duration (LoadTestResult.result r) =
    (clock (S (S (reads st))) - clock (reads st))%Z /\
  ((forall i, (clock i <= clock (S i))%Z) ->
   (0 <= clock (S (reads st)) - clock (reads st))%Z /\
   (clock (S (reads st)) - clock (reads st) <=
    Report.duration (LoadTestResult.result r))%Z).
Proof.
  intros H.
  pose proof (loadTest_returned_reads _ _ _ H) as Hreads.
  destruct (loadTest_returned passed_of checkResult clock arrivals run _ _ _ H)
    as (phases & results & m & check & _ & _ & _ & _ & -> & _).
  cbn [report_of LoadTestResult.result Report.duration].
  split; [lia|]. split; [reflexivity|].
  intros Hmono.
  pose proof (Hmono (reads st)). pose proof (Hmono (S (reads st))).
  split; lia.
Qed.

(** X6.  A run that returns a report emits it at most once, as the last
    thing it does: with an event emitter in the options the trace ends with
    one ['loadtest:result'] event that carries the very report returned, and
    without one nothing is emitted.  The report carries the workflow it was
    asked to run. *)
Theorem report_emitted_last (workflow : Workflow.t Matcher)
  (options : option WorkflowOptions.t) (st st' : St)
  (r : LoadTestResult.t Matcher CheckResult) :
  loadTest' workflow options st = (ok r, st') ->
  emitted (trace st') =
    emitted (trace st) ++
    (if has_emitter options then [("loadtest:result"%string, r)] else []) /\
  (has_emitter options = true ->
   exists before, trace st' = before ++ [Emit "loadtest:result" r]) /\
  LoadTestResult.workflow r = workflow.
Proof.
  intros H.
  destruct (@returned_emitted _ _ _ _ _ H) as [Hem Hw].
  split; [exact Hem|]. split; [|exact Hw].
  destruct (loadTest_returned passed_of checkResult clock arrivals run _ _ _ H)
    as (phases & results & m & check & _ & _ & _ & _ & _ & Ht).
  intros He. rewrite Ht. unfold emit_events, has_emitter in *.
  destruct options as [o|]; [|discriminate]. rewrite He.
  eexists. rewrite !app_assoc. reflexivity.
Qed.

(** X7.  A call that fails, at whatever stage, has emitted nothing and has
    not called the check evaluator. *)
Theorem failed_run_is_silent (workflow : Workflow.t Matcher)
  (options : option WorkflowOptions.t) (st : St) (e : Exn) :
  fst (loadTest' workflow options st) = failed e ->
  emitted (trace (snd (loadTest' workflow options st))) = emitted (trace st) /\
  forall k, check_calls k (trace (snd (loadTest' workflow options st))) =
            check_calls k (trace st).
Proof.
  rewrite loadTest_run.
  destruct (Workflow.phases workflow) as [phases|]; [|now split].
  cbv zeta.
  assert (Hsched :
    emitted (trace st ++ [ClockRead (clock (reads st))] ++
             RunPhases phases :: map Run (seq 0 (arrivals phases))) =
      emitted (trace st) /\
    forall k,
      check_calls k (trace st ++ [ClockRead (clock (reads st))] ++
                     RunPhases phases :: map Run (seq 0 (arrivals phases))) =
      check_calls k (trace st)).
  { split; [|intros k].
    - rewrite !emitted_app.
      change (emitted (RunPhases phases :: map Run (seq 0 (arrivals phases))))
        with (emitted (map (@Run Matcher CheckResult) (seq 0 (arrivals phases)))).
      destruct (runs_counted (seq 0 (arrivals phases))) as (_ & _ & ->).
      cbn. now rewrite app_nil_r.
    - rewrite !check_calls_app.
      change (check_calls k (RunPhases phases :: map Run (seq 0 (arrivals phases))))
        with (check_calls k (map (@Run Matcher CheckResult)
                                 (seq 0 (arrivals phases)))).
      rewrite check_calls_runs. cbn. lia. }
  destruct Hsched as [Hem Hch].
  destruct (values_of (harvested' workflow options phases)) as [e'|results];
    [intros _; cbn [snd trace]; now split|].
  destruct (metricsResult (response_times results)) as [e'|m];
    [intros _; cbn [snd trace]; now split|].
  destruct (Workflow.check workflow) as [check|]; [discriminate|].
  intros _. cbn [snd trace]. split; [|intros k].
  - rewrite emitted_app, Hem. cbn. now rewrite app_nil_r.
  - rewrite check_calls_app, Hch. cbn. lia.
Qed.

(** X8.  On a workflow with phases the scheduler is called exactly once, with
    those phases, and the iteration callback as many times as the schedule
    asks, whether the call then returns a report or fails. *)
Theorem scheduler_called_once (workflow : Workflow.t Matcher)
  (options : option WorkflowOptions.t) (st : St) (phases : list Phase.t) :
  Workflow.phases workflow = Some phases ->
  scheduler_calls (trace (snd (loadTest' workflow options st))) =
    (scheduler_calls (trace st) + 1)%nat /\
  iterations_run (trace (snd (loadTest' workflow options st))) =
    (iterations_run (trace st) + arrivals phases)%nat /\
  In (RunPhases phases) (trace (snd (loadTest' workflow options st))).
Proof.
  exact (@scheduled_counts workflow options st phases).
Qed.

(** X9.  [loadTest] returns a report exactly when the workflow has phases
    and a check block, no iteration settled as rejected, and the iterations
    ran at least one step. *)
Theorem loadTest_returns_iff (workflow : Workflow.t Matcher)
  (options : option WorkflowOptions.t) (st : St) :
  (exists r st', loadTest' workflow options st = (ok r, st')) <->
  (exists phases check,
     Workflow.phases workflow = Some phases /\
     Workflow.check workflow = Some check /\
     has_rejected (harvested' workflow options phases) = false /\
     latency_samples (harvested' workflow options phases) <> []).
Proof.
  split.
  - intros (r & st' & H).
    destruct (loadTest_returned passed_of checkResult clock arrivals run _ _ _ H)
      as (phases & results & m & check & Hp & Hc & Hh & Hm & _ & _).
    exists phases, check. repeat split; try assumption.
    + rewrite Hh. apply has_rejected_fulfilled.
    + rewrite Hh.
      rewrite <- (@response_times_samples _ _ (values_of_total results)).
      exact (@SummaryFacts.metricsResult_ok_nonempty _ _ Hm).
  - intros (phases & check & Hp & Hc & Hr & Hs).
    destruct (@values_of_no_rejected _ Hr) as (results & Hv).
    rewrite <- (@response_times_samples _ _ Hv) in Hs.
    destruct (@SummaryFacts.metricsResult_nonempty _ Hs) as (m & Hm).
    rewrite loadTest_run, Hp. cbv zeta.
    rewrite Hv. cbv beta iota delta [ok].
    rewrite Hm. cbv beta iota delta [ok].
    rewrite Hc. eexists. eexists. reflexivity.
Qed.

(** X10.  When the iterations ran no step at all (the schedule asked for no
    iteration, or every iteration came back without steps), [loadTest] fails
    with [EmptySampleSet] after the scheduling, check block or not. *)
Theorem no_samples_fails (workflow : Workflow.t Matcher)
  (options : option WorkflowOptions.t) (st : St) (phases : list Phase.t) :
  Workflow.phases workflow = Some phases ->
  has_rejected (harvested' workflow options phases) = false ->
  latency_samples (harvested' workflow options phases) = [] ->
  loadTest' workflow options st =
  (failed EmptySampleSet,
   mkState (S (reads st))
           (trace st ++ [ClockRead (clock (reads st))] ++
            RunPhases phases :: map Run (seq 0 (arrivals phases)))).
Proof.
  intros Hp Hr Hs.
  destruct (@values_of_no_rejected _ Hr) as (results & Hv).
  rewrite <- (@response_times_samples _ _ Hv) in Hs.
  rewrite loadTest_run, Hp. cbv zeta.
  rewrite Hv. cbv beta iota delta [ok].
  rewrite Hs. reflexivity.
Qed.

(** X11.  The [responseTime] of every report [loadTest] returns is ordered:
    min <= med <= p95 <= p99 <= max and min <= avg <= max. *)
Theorem report_summary_ordered (workflow : Workflow.t Matcher)
  (options : option WorkflowOptions.t) (st st' : St)
  (r : LoadTestResult.t Matcher CheckResult) :
  loadTest' workflow options st = (ok r, st') ->
  let m := Report.responseTime (LoadTestResult.result r) in
  LoadTestMetric.min m <= LoadTestMetric.med m /\
  LoadTestMetric.med m <= LoadTestMetric.p95 m /\
  LoadTestMetric.p95 m <= LoadTestMetric.p99 m /\
  LoadTestMetric.p99 m <= LoadTestMetric.max m /\
  LoadTestMetric.min m <= LoadTestMetric.avg m /\
  LoadTestMetric.avg m <= LoadTestMetric.max m.
Proof.
  intros H.
  destruct (loadTest_returned passed_of checkResult clock arrivals run _ _ _ H)
    as (phases & results & m & check & _ & _ & _ & Hm & -> & _).
  cbn [report_of LoadTestResult.result Report.responseTime].
  exact (@SummaryFacts.summary_ordered _ _ Hm).
Qed.

(** X12.  The [rps] of a report is never [NaN]: a run that returns a report
    collected at least one sample, so [rps] is [Infinity] when the clock
    shows the same millisecond at the start and at its next reading, and the
    finite quotient of the samples by the elapsed seconds otherwise. *)
Theorem rps_infinite_or_finite (workflow : Workflow.t Matcher)
  (options : option WorkflowOptions.t) (st st' : St)
  (r : LoadTestResult.t Matcher CheckResult) :
  loadTest' workflow options st = (ok r, st') ->
  exists phases,
    Workflow.phases workflow = Some phases /\
    let n := length (latency_samples (harvested' workflow options phases)) in
    let start := clock (reads st) in
    let now := clock (S (reads st)) in
    (0 < n)%nat /\
    Report.rps (LoadTestResult.result r) =
      if (now =? start)%Z then PosInfinity
      else Finite (inject_Z (Z.of_nat n) / elapsed_seconds start now).
Proof.
  intros H.
  destruct (loadTest_returned passed_of checkResult clock arrivals run _ _ _ H)
    as (phases & results & m & check & Hp & _ & Hh & Hm & -> & _).
  exists phases. split; [assumption|]. cbv zeta.
  rewrite Hh.
  rewrite <- (@response_times_samples _ _ (values_of_total results)).
  pose proof (@SummaryFacts.metricsResult_ok_nonempty _ _ Hm) as Hne.
  assert (Hn : (0 < length (response_times results))%nat)
    by (destruct (response_times results); [congruence|simpl; lia]).
  split; [assumption|].
  cbn [report_of LoadTestResult.result Report.rps].
  fold (elapsed_seconds (clock (reads st)) (clock (S (reads st)))).
  rewrite js_div_of_positive, elapsed_seconds_zero; [reflexivity|].
  change 0 with (inject_Z 0). rewrite <- Zlt_Qlt. lia.
Qed.

End OrchestratorMore.

(** ** [loadTestFromFile] *)

Section FromFileFacts.

Variables Matcher CheckResult : Type.
Variable passed_of : CheckResult -> bool.
Variable checkResult : Q -> Threshold Matcher -> CheckResult.
Variable clock : nat -> Z.
Variable arrivals : list Phase.t -> nat.
Variable run : Workflow.t Matcher -> option WorkflowOptions.t -> nat ->
               PromiseSettledResult WorkflowResult.t.
Variable readFile : string -> string + string.
Variable yaml_load : string -> string + YamlDocument Matcher.

Local Abbreviation loadTest' := (loadTest passed_of checkResult clock arrivals run).
Local Abbreviation loadTestFromFile' :=
  (loadTestFromFile passed_of checkResult clock arrivals run readFile yaml_load).
Local Abbreviation St := (State Matcher CheckResult).

(** On a document with a readable [config], the call is the call of
    [loadTest] on it, with the path put into the options. *)
Lemma loadTestFromFile_delegates (path testFile : string)
  (options : option WorkflowOptions.t) (config : Workflow.t Matcher) (st : St) :
  readFile path = inr testFile ->
  yaml_load testFile = inr (YamlValue config) ->
  snd (loadTestFromFile' path options st) =
    snd (loadTest' config (Some (with_path options path)) st) /\
  fst (loadTestFromFile' path options st) =
    match fst (loadTest' config (Some (with_path options path)) st) with
    | inl e => inl (Thrown e)
    | inr result => inr result
    end.
Proof.
  intros Hr Hy. unfold loadTestFromFile. rewrite Hr, Hy.
  destruct (loadTest' config (Some (with_path options path)) st) as [[e|r] s'];
    split; reflexivity.
Qed.

(** X13.  [loadTestFromFile] either fails and leaves the state as it found
    it (the file could not be read or parsed, the document is empty or
    [null], or it has no [loadTest] phases), or the file was read and parsed
    into a workflow with phases and the scheduler was called exactly once,
    with those phases: the call adds to the trace the reading of the clock
    and then the scheduler's call with the phases of the parsed workflow, and
    no other call of the scheduler follows. *)
Theorem loadTestFromFile_fails_first_or_schedules (path : string)
  (options : option WorkflowOptions.t) (st : St) :
  (snd (loadTestFromFile' path options st) = st /\
   exists e, fst (loadTestFromFile' path options st) = inl e) \/
  (exists testFile config phases,
     readFile path = inr testFile /\
     yaml_load testFile = inr (YamlValue config) /\
     Workflow.phases config = Some phases /\
     scheduler_calls (trace (snd (loadTestFromFile' path options st))) =
       (scheduler_calls (trace st) + 1)%nat /\
     iterations_run (trace (snd (loadTestFromFile' path options st))) =
       (iterations_run (trace st) + arrivals phases)%nat /\
     In (RunPhases phases) (trace (snd (loadTestFromFile' path options st))) /\
     exists later,
       trace (snd (loadTestFromFile' path options st)) =
         trace st ++
         ClockRead (clock (reads st)) :: RunPhases phases :: later /\
       scheduler_calls later = 0%nat).
Proof.
  destruct (readFile path) as [reason|testFile] eqn:Hr.
  { left. unfold loadTestFromFile. rewrite Hr. split; [reflexivity|now eexists]. }
  destruct (yaml_load testFile) as [reason|[| |config]] eqn:Hy;
    try (left; unfold loadTestFromFile; rewrite Hr, Hy;
         split; [reflexivity|now eexists]).
  destruct (@loadTestFromFile_delegates path testFile options config st Hr Hy)
    as [Hs Hf].
  rewrite Hs, Hf.
  destruct (Workflow.phases config) as [phases|] eqn:Hp.
  - right. exists testFile, config, phases.
    destruct (@scheduled_counts _ _ passed_of checkResult clock arrivals run
                config (Some (with_path options path)) st phases Hp)
      as (H1 & H2 & H3).
    destruct (@loadTest_scheduled _ _ passed_of checkResult clock arrivals run
                config (Some (with_path options path)) st phases Hp)
      as (rest & Ht & Hrest & _).
    repeat split; try assumption.
    exists (map Run (seq 0 (arrivals phases)) ++ rest). split.
    + rewrite Ht. reflexivity.
    + rewrite scheduler_calls_app, Hrest.
      destruct (@runs_counted Matcher CheckResult (seq 0 (arrivals phases)))
        as (-> & _). reflexivity.
  - left. rewrite loadTest_run, Hp. split; [reflexivity|now eexists].
Qed.

(** X14.  A report [loadTestFromFile] returns is the report of [loadTest] on
    the workflow parsed from the file, run with the caller's options and the
    file's path; it carries that workflow, and it was emitted, once, exactly
    when the caller's options held an event emitter. *)
Theorem loadTestFromFile_returned (path : string)
  (options : option WorkflowOptions.t) (st st' : St)
  (r : LoadTestResult.t Matcher CheckResult) :
  loadTestFromFile' path options st = (inr r, st') ->
  exists testFile config,
    readFile path = inr testFile /\
    yaml_load testFile = inr (YamlValue config) /\
    loadTest' config (Some (with_path options path)) st = (ok r, st') /\
    LoadTestResult.workflow r = config /\
    emitted (trace st') =
      emitted (trace st) ++
      (if has_emitter options then [("loadtest:result"%string, r)] else []).
Proof.
  intros H.
  destruct (readFile path) as [reason|testFile] eqn:Hr;
    [unfold loadTestFromFile in H; rewrite Hr in H; discriminate|].
  destruct (yaml_load testFile) as [reason|[| |config]] eqn:Hy;
    try (unfold loadTestFromFile in H; rewrite Hr, Hy in H; discriminate).
  exists testFile, config.
  assert (Hrun : loadTest' config (Some (with_path options path)) st = (ok r, st')).
  { unfold loadTestFromFile in H. rewrite Hr, Hy in H.
    destruct (loadTest' config (Some (with_path options path)) st) as [[e|r'] s'];
      [discriminate|].
    injection H as -> ->. reflexivity. }
  destruct (@returned_emitted _ _ passed_of checkResult clock arrivals run
              _ _ _ _ _ Hrun) as [Hem Hw].
  repeat split; try assumption; reflexivity || exact Hem.
Qed.

End FromFileFacts.

(** ** The sample world, again *)

Lemma passed_iff_every_check_passed_witness :
  exists r st',
    Sample.loadTest_mixed Sample.with_checks None Sample.initial = (ok r, st') /\
    exists check,
      Workflow.check Sample.with_checks = Some check /\
      (Report.passed (LoadTestResult.result r) = true <->
       forall (k : MetricKey.t) (expected : Threshold Sample.Matcher),
         LoadTestCheck.get k check = Some expected ->
         truthy (Some expected) = true ->
         Sample.passed
           (Sample.checkResult
              (metric k (Report.responseTime (LoadTestResult.result r)))
              expected) = true).
Proof.
  do 2 eexists.
  assert (H : Sample.loadTest_mixed Sample.with_checks None Sample.initial =
              (ok _, _)) by (vm_compute; reflexivity).
  split; [exact H|].
  exact (@passed_iff_every_check_passed _ _ Sample.passed Sample.checkResult
           Sample.clock Sample.arrivals Sample.run_mixed _ _ _ _ _ H).
Defined.

Lemma falsy_check_block_passes_witness :
  exists r st' check,
    Workflow.check Sample.with_empty_check = Some check /\
    (forall k, truthy (LoadTestCheck.get k check) = false) /\
    Sample.loadTest_mixed Sample.with_empty_check None Sample.initial = (ok r, st') /\
    Report.passed (LoadTestResult.result r) = true /\
    Report.checks (LoadTestResult.result r) = Some LoadTestChecksResult.empty.
Proof.
  do 3 eexists.
  assert (Hc : Workflow.check Sample.with_empty_check = Some _) by reflexivity.
  assert (Hf : forall k,
             truthy (LoadTestCheck.get k
                       (LoadTestCheck.make (Matcher := Sample.Matcher)
                          None None None None None None)) = false)
    by (intros k; destruct k; reflexivity).
  assert (H : Sample.loadTest_mixed Sample.with_empty_check None Sample.initial =
              (ok _, _)) by (vm_compute; reflexivity).
  split; [exact Hc|]. split; [exact Hf|]. split; [exact H|].
  exact (@falsy_check_block_passes _ _ Sample.passed Sample.checkResult
           Sample.clock Sample.arrivals Sample.run_mixed _ _ _ _ _ _ Hc Hf H).
Defined.

Lemma duration_spans_rps_window_witness :
  exists r st',
    Sample.loadTest_mixed Sample.with_checks None Sample.initial = (ok r, st') /\
    reads st' = (reads Sample.initial + 3)%nat /\
    Report.duration (LoadTestResult.result r) =
      (Sample.clock 2 - Sample.clock 0)%Z /\
    (forall i, (Sample.clock i <= Sample.clock (S i))%Z) /\
    (0 <= Sample.clock 1 - Sample.clock 0)%Z /\
    (Sample.clock 1 - Sample.clock 0 <=
     Report.duration (LoadTestResult.result r))%Z.
Proof.
  assert (Hmono : forall i, (Sample.clock i <= Sample.clock (S i))%Z)
    by (intros i; unfold Sample.clock; lia).
  do 2 eexists.
  assert (H : Sample.loadTest_mixed Sample.with_checks None Sample.initial =
              (ok _, _)) by (vm_compute; reflexivity).
  split; [exact H|].
  destruct (@duration_spans_rps_window _ _ Sample.passed Sample.checkResult
              Sample.clock Sample.arrivals Sample.run_mixed _ _ _ _ _ H)
    as (Hreads & Hduration & Hwindow).
  split; [exact Hreads|]. split; [exact Hduration|]. split; [exact Hmono|].
  exact (Hwindow Hmono).
Defined.

Lemma report_emitted_last_witness :
  exists r st',
    Sample.loadTest_mixed Sample.with_checks SampleFiles.listening Sample.initial =
      (ok r, st') /\
    emitted (trace st') =
      emitted (trace Sample.initial) ++
      (if has_emitter SampleFiles.listening
       then [("loadtest:result"%string, r)] else []) /\
    (has_emitter SampleFiles.listening = true ->
     exists before, trace st' = before ++ [Emit "loadtest:result" r]) /\
    LoadTestResult.workflow r = Sample.with_checks.
Proof.
  do 2 eexists.
  assert (H : Sample.loadTest_mixed Sample.with_checks SampleFiles.listening
                Sample.initial = (ok _, _)) by (vm_compute; reflexivity).
  split; [exact H|].
  exact (@report_emitted_last _ _ Sample.passed Sample.checkResult
           Sample.clock Sample.arrivals Sample.run_mixed _ _ _ _ _ H).
Defined.

Lemma failed_run_is_silent_witness :
  fst (Sample.loadTest_rejecting Sample.with_checks SampleFiles.listening
         Sample.initial) =
    failed (TypeError "Cannot read properties of undefined (reading 'result')") /\
  emitted (trace (snd (Sample.loadTest_rejecting Sample.with_checks
                         SampleFiles.listening Sample.initial))) =
    emitted (trace Sample.initial) /\
  forall k,
    check_calls k (trace (snd (Sample.loadTest_rejecting Sample.with_checks
                                 SampleFiles.listening Sample.initial))) =
    check_calls k (trace Sample.initial).
Proof.
  assert (H : fst (Sample.loadTest_rejecting Sample.with_checks
                     SampleFiles.listening Sample.initial) =
              failed (TypeError
                "Cannot read properties of undefined (reading 'result')"))
    by reflexivity.
  split; [exact H|].
  exact (@failed_run_is_silent _ _ Sample.passed Sample.checkResult
           Sample.clock Sample.arrivals Sample.run_rejecting _ _ _ _ H).
Defined.

Lemma scheduler_called_once_witness :
  Workflow.phases Sample.without_check = Some Sample.schedule /\
  scheduler_calls
    (trace (snd (Sample.loadTest_mixed Sample.without_check None Sample.initial))) =
    (scheduler_calls (trace Sample.initial) + 1)%nat /\
  iterations_run
    (trace (snd (Sample.loadTest_mixed Sample.without_check None Sample.initial))) =
    (iterations_run (trace Sample.initial) + Sample.arrivals Sample.schedule)%nat /\
  In (RunPhases Sample.schedule)
     (trace (snd (Sample.loadTest_mixed Sample.without_check None Sample.initial))).
Proof.
  assert (Hp : Workflow.phases Sample.without_check = Some Sample.schedule)
    by reflexivity.
  split; [exact Hp|].
  exact (@scheduler_called_once _ _ Sample.passed Sample.checkResult
           Sample.clock Sample.arrivals Sample.run_mixed _ None Sample.initial _ Hp).
Defined.

Lemma no_samples_fails_witness :
  Workflow.phases SampleFiles.without_arrivals = Some [] /\
  has_rejected (harvested Sample.arrivals Sample.run_mixed
                          SampleFiles.without_arrivals None []) = false /\
  latency_samples (harvested Sample.arrivals Sample.run_mixed
                             SampleFiles.without_arrivals None []) = [] /\
  Sample.loadTest_mixed SampleFiles.without_arrivals None Sample.initial =
  (failed EmptySampleSet,
   mkState (S (reads Sample.initial))
           (trace Sample.initial ++ [ClockRead (Sample.clock (reads Sample.initial))] ++
            RunPhases [] :: map Run (seq 0 (Sample.arrivals [])))).
Proof.
  repeat (split; [reflexivity|]).
  apply (@no_samples_fails _ _ Sample.passed Sample.checkResult
           Sample.clock Sample.arrivals Sample.run_mixed
           SampleFiles.without_arrivals None Sample.initial []); reflexivity.
Defined.

Lemma report_summary_ordered_witness :
  exists r st',
    Sample.loadTest_mixed Sample.with_checks None Sample.initial = (ok r, st') /\
    let m := Report.responseTime (LoadTestResult.result r) in
    LoadTestMetric.min m <= LoadTestMetric.med m /\
    LoadTestMetric.med m <= LoadTestMetric.p95 m /\
    LoadTestMetric.p95 m <= LoadTestMetric.p99 m /\
    LoadTestMetric.p99 m <= LoadTestMetric.max m /\
    LoadTestMetric.min m <= LoadTestMetric.avg m /\
    LoadTestMetric.avg m <= LoadTestMetric.max m.
Proof.
  do 2 eexists.
  assert (H : Sample.loadTest_mixed Sample.with_checks None Sample.initial =
              (ok _, _)) by (vm_compute; reflexivity).
  split; [exact H|].
  exact (@report_summary_ordered _ _ Sample.passed Sample.checkResult
           Sample.clock Sample.arrivals Sample.run_mixed _ _ _ _ _ H).
Defined.

Lemma rps_infinite_or_finite_witness :
  exists r st',
    Sample.loadTest_mixed Sample.with_checks None Sample.initial = (ok r, st') /\
    exists phases,
      Workflow.phases Sample.with_checks = Some phases /\
      let n := length (latency_samples
                         (harvested Sample.arrivals Sample.run_mixed
                                    Sample.with_checks None phases)) in
      let start := Sample.clock (reads Sample.initial) in
      let now := Sample.clock (S (reads Sample.initial)) in
      (0 < n)%nat /\
      Report.rps (LoadTestResult.result r) =
        if (now =? start)%Z then PosInfinity
        else Finite (inject_Z (Z.of_nat n) / elapsed_seconds start now).
Proof.
  do 2 eexists.
  assert (H : Sample.loadTest_mixed Sample.with_checks None Sample.initial =
              (ok _, _)) by (vm_compute; reflexivity).
  split; [exact H|].
  exact (@rps_infinite_or_finite _ _ Sample.passed Sample.checkResult
           Sample.clock Sample.arrivals Sample.run_mixed _ _ _ _ _ H).
Defined.

Lemma loadTestFromFile_returned_witness :
  exists r st',
    SampleFiles.loadTestFromFile "load.yml" SampleFiles.listening Sample.initial =
      (inr r, st') /\
    exists testFile config,
      SampleFiles.readFile "load.yml" = inr testFile /\
      SampleFiles.yaml_load testFile = inr (YamlValue config) /\
      Sample.loadTest_mixed config
        (Some (with_path SampleFiles.listening "load.yml")) Sample.initial =
        (ok r, st') /\
      LoadTestResult.workflow r = config /\
      emitted (trace st') =
        emitted (trace Sample.initial) ++
        (if has_emitter SampleFiles.listening
         then [("loadtest:result"%string, r)] else []).
Proof.
  do 2 eexists.
  assert (H : SampleFiles.loadTestFromFile "load.yml" SampleFiles.listening
                Sample.initial = (inr _, _)) by (vm_compute; reflexivity).
  split; [exact H|].
  exact (@loadTestFromFile_returned _ _ Sample.passed Sample.checkResult
           Sample.clock Sample.arrivals Sample.run_mixed
           SampleFiles.readFile SampleFiles.yaml_load _ _ _ _ _ H).
Defined.

Lemma rps_is_samples_per_second_witness :
  exists r st',
    Sample.loadTest_mixed Sample.with_checks None Sample.initial = (ok r, st') /\
    Report.rps (LoadTestResult.result r) = Finite (4000 # 250) /\
    exists phases,
      Workflow.phases Sample.with_checks = Some phases /\
      let count :=
        inject_Z (Z.of_nat (length (latency_samples
                    (harvested Sample.arrivals Sample.run_mixed
                               Sample.with_checks None phases)))) in
      let seconds := inject_Z (Sample.clock 1 - Sample.clock 0) / 1000 in
      0 < count /\
      (Sample.clock 1 <> Sample.clock 0 ->
       exists q : Q,
         Report.rps (LoadTestResult.result r) = Finite q /\
         q == count / seconds /\
         q * seconds == count) /\
      (Sample.clock 1 = Sample.clock 0 ->
       Report.rps (LoadTestResult.result r) = PosInfinity).
Proof.
  do 2 eexists.
  assert (H : Sample.loadTest_mixed Sample.with_checks None Sample.initial =
              (ok _, _)) by (vm_compute; reflexivity).
  split; [exact H|]. split; [reflexivity|].
  exact (@rps_is_samples_per_second _ _ Sample.passed Sample.checkResult
           Sample.clock Sample.arrivals Sample.run_mixed _ _ _ _ _ H).
Defined.

(** C4 as worded fails on the empty array of phases: the workflow declares no
    phase, yet the guard of line 76 lets it through; the clock is read, the
    scheduler is called, and the call fails later, on the empty sample set. *)
Lemma empty_phases_pass_the_guard :
  declares_no_phase SampleFiles.without_arrivals = true /\
  Sample.loadTest_mixed SampleFiles.without_arrivals None Sample.initial <>
    (failed MissingLoadTestConfig, Sample.initial) /\
  fst (Sample.loadTest_mixed SampleFiles.without_arrivals None Sample.initial) =
    failed EmptySampleSet /\
  reads (snd (Sample.loadTest_mixed SampleFiles.without_arrivals None
                Sample.initial)) = 1%nat /\
  scheduler_calls
    (trace (snd (Sample.loadTest_mixed SampleFiles.without_arrivals None
                   Sample.initial))) = 1%nat.
Proof.
  split; [reflexivity|]. split; [|repeat split].
  intros H. apply (f_equal fst) in H. vm_compute in H. discriminate H.
Qed.
